(** * app.py: QR record store, content formatter, importer and PDF exporter

    A shallow embedding of [src/app.py] (PROCHAP QR generator) and the
    properties of its record life cycle.

    Representation choices:
    - a Python [str] is the list of its code points ([N]);
    - the SQLite file is a value of type [DB] passed explicitly;
    - a Python exception is a [Raise] result;
    - calls into tkinter, logging, fpdf and qrcode are recorded as
      [effect]s, in program order. *)

From stdpp Require Import gmap list strings pretty sorting.
From Stdlib Require Import NArith ZArith Lia.

Local Open Scope N_scope.

(** ** Text *)

Module Text.

(** A Python [str]: a sequence of code points. *)
Abbreviation pystr := (list N).

Definition LF : N := 10.

(** What [str.encode('utf-8')] accepts: every code point is a Unicode
    scalar value (below 0x110000 and not a surrogate). *)
Definition is_scalar (c : N) : bool :=
  (c <? 0xD800) || ((0xE000 <=? c) && (c <? 0x110000)).

Definition valid_text (s : pystr) : Prop := Forall (λ c, is_scalar c = true) s.

(** UTF-8 of one code point (CPython's encoder, errors='strict'). *)
Definition utf8_encode_cp (c : N) : option (list N) :=
  if c <? 0x80 then Some [c]
  else if c <? 0x800 then Some [0xC0 + c / 64; 0x80 + c mod 64]
  else if c <? 0x10000 then
    if (0xD800 <=? c) && (c <? 0xE000) then None
    else Some [0xE0 + c / 4096; 0x80 + (c / 64) mod 64; 0x80 + c mod 64]
  else if c <? 0x110000 then
    Some [0xF0 + c / 262144; 0x80 + (c / 4096) mod 64;
          0x80 + (c / 64) mod 64; 0x80 + c mod 64]
  else None.

Fixpoint utf8_encode (s : pystr) : option (list N) :=
  match s with
  | [] => Some []
  | c :: s' =>
      match utf8_encode_cp c, utf8_encode s' with
      | Some bs, Some bs' => Some (bs ++ bs')
      | _, _ => None
      end
  end.

Definition is_cont (b : N) : bool := (0x80 <=? b) && (b <? 0xC0).

(** Strict UTF-8 decoding: shortest form only, no surrogates, at most
    U+10FFFF. *)
Fixpoint utf8_decode (bs : list N) : option pystr :=
  match bs with
  | [] => Some []
  | b0 :: t =>
      if b0 <? 0x80 then cons b0 <$> utf8_decode t
      else if b0 <? 0xC2 then None
      else if b0 <? 0xE0 then
        match t with
        | b1 :: t1 =>
            if is_cont b1
            then cons ((b0 - 0xC0) * 64 + (b1 - 0x80)) <$> utf8_decode t1
            else None
        | _ => None
        end
      else if b0 <? 0xF0 then
        match t with
        | b1 :: b2 :: t2 =>
            let c := (b0 - 0xE0) * 4096 + (b1 - 0x80) * 64 + (b2 - 0x80) in
            if is_cont b1 && is_cont b2 && (0x800 <=? c)
               && negb ((0xD800 <=? c) && (c <? 0xE000))
            then cons c <$> utf8_decode t2
            else None
        | _ => None
        end
      else if b0 <? 0xF5 then
        match t with
        | b1 :: b2 :: b3 :: t3 =>
            let c := (b0 - 0xF0) * 262144 + (b1 - 0x80) * 4096
                     + (b2 - 0x80) * 64 + (b3 - 0x80) in
            if is_cont b1 && is_cont b2 && is_cont b3
               && (0x10000 <=? c) && (c <? 0x110000)
            then cons c <$> utf8_decode t3
            else None
        | _ => None
        end
      else None
  end.

Fixpoint bytes_of_string (s : string) : list N :=
  match s with
  | EmptyString => []
  | String a s' => Ascii.N_of_ascii a :: bytes_of_string s'
  end.

(** A string literal of the source, as code points. *)
Definition lit (s : string) : pystr :=
  default [] (utf8_decode (bytes_of_string s)).
Arguments lit s%_string.

(** [str.isspace] for one character (CPython's [_PyUnicode_IsWhitespace]). *)
Definition isspace (c : N) : bool :=
  ((0x09 <=? c) && (c <=? 0x0D)) || ((0x1C <=? c) && (c <=? 0x20))
  || (c =? 0x85) || (c =? 0xA0) || (c =? 0x1680)
  || ((0x2000 <=? c) && (c <=? 0x200A))
  || (c =? 0x2028) || (c =? 0x2029) || (c =? 0x202F) || (c =? 0x205F)
  || (c =? 0x3000).

Fixpoint lstrip (s : pystr) : pystr :=
  match s with
  | c :: s' => if isspace c then lstrip s' else s
  | [] => []
  end.

Definition rstrip (s : pystr) : pystr := rev (lstrip (rev s)).

(** [s.strip()] *)
Definition strip (s : pystr) : pystr := rstrip (lstrip s).

(** [not s] for a string. *)
Definition is_empty (s : pystr) : bool :=
  match s with [] => true | _ => false end.

(** [not l] for a list. *)
Definition is_empty_list {A} (l : list A) : bool :=
  match l with [] => true | _ => false end.

(** [sep.join(parts)] *)
Fixpoint join (sep : pystr) (parts : list pystr) : pystr :=
  match parts with
  | [] => []
  | [p] => p
  | p :: ps => p ++ sep ++ join sep ps
  end.

(** [s.split('\n')] *)
Fixpoint split_lines (s : pystr) : list pystr :=
  match s with
  | [] => [[]]
  | c :: s' =>
      if c =? LF then [] :: split_lines s'
      else match split_lines s' with
           | l :: ls => (c :: l) :: ls
           | [] => [[c]]
           end
  end.

End Text.
Export Text.

(** ** urllib.parse *)

Module Urllib.

(** [_ALWAYS_SAFE] plus the default [safe='/']. *)
Definition is_safe (b : N) : bool :=
  ((0x41 <=? b) && (b <=? 0x5A)) || ((0x61 <=? b) && (b <=? 0x7A))
  || ((0x30 <=? b) && (b <=? 0x39))
  || (b =? 0x5F) || (b =? 0x2E) || (b =? 0x2D) || (b =? 0x7E)
  || (b =? 0x2F).

Definition PERCENT : N := 0x25.

(** One digit of ['%{:02X}']. *)
Definition hexdigit (d : N) : N := if d <? 10 then 0x30 + d else 0x37 + d.

Definition quote_byte (b : N) : list N :=
  if is_safe b then [b] else [PERCENT; hexdigit (b / 16); hexdigit (b mod 16)].

(** [quote_from_bytes(bs, safe='/')] *)
Definition quote_from_bytes (bs : list N) : pystr := concat (map quote_byte bs).

(** [quote(s)]: [None] stands for the [UnicodeEncodeError] of
    [s.encode('utf-8', 'strict')]. *)
Definition quote (s : pystr) : option pystr :=
  quote_from_bytes <$> utf8_encode s.

Definition hexval (c : N) : option N :=
  if (0x30 <=? c) && (c <=? 0x39) then Some (c - 0x30)
  else if (0x41 <=? c) && (c <=? 0x46) then Some (c - 0x37)
  else if (0x61 <=? c) && (c <=? 0x66) then Some (c - 0x57)
  else None.

(** [unquote_to_bytes]: a ['%'] followed by two hex digits is one octet,
    everything else stands for itself. *)
Fixpoint unquote_to_bytes (bs : list N) : list N :=
  match bs with
  | [] => []
  | c :: t =>
      if c =? PERCENT then
        match t with
        | h :: l :: rest =>
            match hexval h, hexval l with
            | Some x, Some y => (16 * x + y) :: unquote_to_bytes rest
            | _, _ => c :: unquote_to_bytes t
            end
        | _ => c :: unquote_to_bytes t
        end
      else c :: unquote_to_bytes t
  end.

(** Percent-decoding of a query value back to text, as [unquote] does:
    the octets are read as UTF-8. [None] where the octets are not
    well-formed UTF-8 (Python would substitute U+FFFD there). *)
Definition unquote (s : pystr) : option pystr :=
  bs ← utf8_encode s; utf8_decode (unquote_to_bytes bs).

End Urllib.
Export Urllib.

(** ** Exceptions, the world and the effect monad *)

Module Py.

Inductive exn :=
  | UnicodeEncodeError
  | KeyError (key : pystr)
  | Sqlite3Error
  | IOError.

Inductive result (A : Type) :=
  | Ok (a : A)
  | Raise (e : exn).
Arguments Ok {A} a.
Arguments Raise {A} e.

(** One row of [qr_codes], the tuple [SELECT *] yields. *)
Record qr_row := {
  id : Z;
  contenido : pystr;
  fecha_creacion : pystr;
  descripcion : pystr;
  personalizacion : pystr
}.

(** The table [qr_codes]: its rows in rowid (B-tree) order, and the
    counter [sqlite_sequence] keeps for an AUTOINCREMENT key. *)
Record table := { rows : list qr_row; seq : Z }.

(** The database file: [None] until the table has been created. *)
Definition DB := option table.

(** The raster [generate_qr_image text size] returns, named by what it
    encodes. *)
Record image := { img_text : pystr; img_size : N }.

Inductive item :=
  | PdfImage (img : image) (x y w h : Z)
  | PdfMultiCell (at_xy : option (Z * Z)) (w h : Z) (txt : pystr).

(** An [FPDF] document: the pages the program started so far, the
    cursor, what was placed, each with the number of the page it is on
    (first page 0), and the settings made. With the automatic page break
    on, fpdf itself starts a further page when a text cell would cross
    the bottom margin; how many lines a caption takes is decided by
    fpdf's font metrics and is not part of this model. *)
Record FPDF := {
  pages : nat;
  cursor : option (Z * Z);             (* [None]: wherever fpdf left it *)
  body : list (nat * item);
  auto_page_break : option (bool * Z); (* [None]: fpdf's default *)
  font : option (pystr * Z)
}.

Inductive level := INFO | WARNING | ERROR.
Inductive box := showinfo | showwarning | showerror.

Inductive sql :=
  | CreateTable
  | Insert (contenido descripcion personalizacion : pystr)
  | SelectAll
  | DeleteAll.

(** Calls that leave the program, in program order. *)
Inductive effect :=
  | Logging (lvl : level) (msg : pystr) (exc : option exn)
  | Sqlite (stmt : sql)
  | QrMake (text : pystr) (size : N)
  | MessageBox (kind : box) (title msg : pystr) (exc : option exn)
  | ShowProgress (show : bool)
  | UpdateProgress (value max_value : Z)
  | ShowQrImage (img : image) (description : pystr)
  | ClearEntries
  | PdfOutput (file_path : pystr) (pdf : FPDF).

(** What the program cannot decide: whether the [n]-th sqlite3 call
    fails, the clock at that call, whether qrcode can encode a text,
    whether fpdf accepts the image or the caption of record [i], and
    whether the PDF file can be written. *)
Record Env := {
  storage_fails : nat → bool;
  now : nat → pystr;
  qr_fits : pystr → bool;
  pdf_image_raises : nat → bool;
  pdf_multi_cell_raises : nat → bool;
  pdf_output_raises : pystr → bool
}.

Record World := {
  env : Env;
  db : DB;
  calls : nat;           (* sqlite3 calls made so far *)
  trace : list effect    (* oldest first *)
}.

(** A computation: reads and updates the world, returns or raises. *)
Definition M (A : Type) : Type := World → result A * World.

Definition ret {A} (a : A) : M A := λ w, (Ok a, w).
Definition raise {A} (e : exn) : M A := λ w, (Raise e, w).
Definition bind {A B} (m : M A) (f : A → M B) : M B :=
  λ w, match m w with
       | (Ok a, w') => f a w'
       | (Raise e, w') => (Raise e, w')
       end.
(** [try: body except: handler] *)
Definition try_except {A} (body : M A) (handler : exn → M A) : M A :=
  λ w, match body w with
       | (Ok a, w') => (Ok a, w')
       | (Raise e, w') => handler e w'
       end.
Definition emit (ev : effect) : M unit :=
  λ w, (Ok tt, {| env := env w; db := db w; calls := calls w;
                  trace := trace w ++ [ev] |}).

End Py.
Export Py.

Declare Scope py_scope.
Delimit Scope py_scope with py.
Notation "x <- m ;; k" := (bind m (λ x, k))
  (at level 100, m at next level, right associativity) : py_scope.
Notation "m ;;; k" := (bind m (λ _, k))
  (at level 100, right associativity) : py_scope.
Local Open Scope py_scope.

(** ** class DatabaseManager *)

Module DatabaseManager.

Definition INT64_MAX : Z := 9223372036854775807.

Definition max_id (rs : list qr_row) : Z := foldr (λ r m, Z.max (id r) m) 0%Z rs.

(** A row enters the rowid B-tree at the place of its key. *)
Fixpoint btree_insert (r : qr_row) (rs : list qr_row) : list qr_row :=
  match rs with
  | [] => [r]
  | r' :: rs' =>
      if (id r <? id r')%Z then r :: rs else r' :: btree_insert r rs'
  end.

(** What a statement does to the file and what it fetches, once it
    runs; [None] is an [sqlite3.Error] of the statement itself (no such
    table, or AUTOINCREMENT exhausted). SQLite gives a new row one more
    than the largest rowid the table ever held, [DELETE] keeps that
    counter, and [SELECT *] without [ORDER BY] walks the B-tree in rowid
    order. *)
Definition sql_run (fecha : pystr) (stmt : sql) (d : DB)
  : option (list qr_row * DB) :=
  match stmt, d with
  | CreateTable, None => Some ([], Some {| rows := []; seq := 0 |})
  | CreateTable, Some t => Some ([], Some t)
  | Insert c ds p, Some t =>
      let new_id := (Z.max (max_id (rows t)) (seq t) + 1)%Z in
      if (INT64_MAX <? new_id)%Z then None
      else
        let r := {| id := new_id; contenido := c; fecha_creacion := fecha;
                    descripcion := ds; personalizacion := p |} in
        Some ([], Some {| rows := btree_insert r (rows t); seq := new_id |})
  | SelectAll, Some t => Some (rows t, Some t)
  | DeleteAll, Some t => Some ([], Some {| rows := []; seq := seq t |})
  | _, None => None
  end.

(** [with sqlite3.connect(DATABASE) as conn: cursor.execute(stmt);
    conn.commit()], and [cursor.fetchall()] for a SELECT. A failing call
    leaves the file as it was. *)
Definition execute (stmt : sql) : M (list qr_row) :=
  λ w,
    let n := calls w in
    let w' := {| env := env w; db := db w; calls := S n;
                 trace := trace w ++ [Sqlite stmt] |} in
    if storage_fails (env w) n then (Raise Sqlite3Error, w')
    else match sql_run (now (env w) n) stmt (db w) with
         | Some (fetched, d') =>
             (Ok fetched, {| env := env w; db := d'; calls := S n;
                             trace := trace w ++ [Sqlite stmt] |})
         | None => (Raise Sqlite3Error, w')
         end.

Definition initialize_database : M unit :=
  try_except
    (_ <- execute CreateTable ;; ret tt)
    (λ e, match e with
          | Sqlite3Error =>
              emit (Logging ERROR (lit "Database initialization error: ") (Some e)) ;;;
              raise e
          | _ => raise e
          end).

Definition create_qr_code (contenido descripcion personalizacion : pystr)
  : M bool :=
  try_except
    (_ <- execute (Insert contenido descripcion personalizacion) ;; ret true)
    (λ e, match e with
          | Sqlite3Error =>
              emit (Logging ERROR (lit "Error creating QR in DB: ") (Some e)) ;;;
              ret false
          | _ => raise e
          end).

Definition get_all_qr_codes : M (list qr_row) :=
  try_except
    (execute SelectAll)
    (λ e, match e with
          | Sqlite3Error =>
              emit (Logging ERROR (lit "Error fetching QRs: ") (Some e)) ;;;
              ret []
          | _ => raise e
          end).

Definition delete_all_qr_codes : M bool :=
  try_except
    (_ <- execute DeleteAll ;; ret true)
    (λ e, match e with
          | Sqlite3Error =>
              emit (Logging ERROR (lit "Error deleting QRs: ") (Some e)) ;;;
              ret false
          | _ => raise e
          end).

End DatabaseManager.

(** ** class QRGenerator *)

Module QRGenerator.

Definition QR_IMAGE_SIZE : N := 150.

Definition create_qr_content (code description personalization : pystr)
  : result pystr :=
  let qr_content :=
    lit "PROCHAP" ++ [LF] ++ lit "Código: " ++ code ++ [LF]
    ++ lit "Descripción: " ++ description ++ [LF]
    ++ lit "Personalización: " ++ personalization in
  match quote qr_content with
  | None => Raise UnicodeEncodeError
  | Some whatsapp_message =>
      let whatsapp_url := lit "https://wa.me/?text=" ++ whatsapp_message in
      Ok (qr_content ++ [LF] ++ lit "Compartir por WhatsApp: " ++ whatsapp_url)
  end.

(** The four-line text of the specification: brand label, code,
    description, personalization. *)
Definition four_lines (code description personalization : pystr)
  : list pystr :=
  [ lit "PROCHAP";
    lit "Código: " ++ code;
    lit "Descripción: " ++ description;
    lit "Personalización: " ++ personalization ].

Definition share_prefix : pystr :=
  lit "Compartir por WhatsApp: https://wa.me/?text=".

(** Any exception of the qrcode/PIL pipeline is logged and turned into
    [None]. *)
Definition generate_qr_image (text : pystr) (size : N) : M (option image) :=
  emit (QrMake text size) ;;;
  λ w, if qr_fits (env w) text
       then ret (Some {| img_text := text; img_size := size |}) w
       else (emit (Logging ERROR (lit "Error generating QR image: ") None) ;;;
             ret None) w.

End QRGenerator.

(** ** class QRApp *)

Module QRApp.
Import DatabaseManager QRGenerator.

Definition liftR {A} (r : result A) : M A := λ w, (r, w).

(** [str(n)] *)
Definition str_of_Z (n : Z) : pystr := lit (pretty n).

Definition messagebox (kind : box) (title msg : pystr) : M unit :=
  emit (MessageBox kind title msg None).
Definition show_progress (show : bool) : M unit := emit (ShowProgress show).
(** [update_progress] turns [value / max_value] into a percentage with
    floating point; the call is recorded with its two arguments. *)
Definition update_progress (value max_value : Z) : M unit :=
  emit (UpdateProgress value max_value).
Definition show_qr_image (qr_image : image) (description : pystr) : M unit :=
  emit (ShowQrImage qr_image description).
Definition clear_entries : M unit := emit ClearEntries.

(** The three arguments are the texts of the entry widgets. *)
Definition generate_and_save_qr
    (code_entry description_entry personalization_entry : pystr) : M unit :=
  let code := strip code_entry in
  let description := strip description_entry in
  let personalization := strip personalization_entry in
  if is_empty code || is_empty description then
    messagebox showerror (lit "Error")
      (lit "Por favor ingrese un código y una descripción.")
  else
    try_except
      (qr_content <- liftR (create_qr_content code description personalization) ;;
       saved <- create_qr_code qr_content description personalization ;;
       if saved : bool then
         qr_image <- generate_qr_image qr_content QR_IMAGE_SIZE ;;
         match qr_image with
         | Some img =>
             show_qr_image img (code ++ lit " - " ++ description) ;;;
             messagebox showinfo (lit "Éxito")
               (lit "QR generado y guardado correctamente.") ;;;
             clear_entries
         | None =>
             messagebox showerror (lit "Error")
               (lit "No se pudo generar la imagen QR.")
         end
       else
         messagebox showerror (lit "Error")
           (lit "No se pudo guardar el QR en la base de datos."))
      (λ e,
         emit (Logging ERROR (lit "Error generating QR: ") (Some e)) ;;;
         emit (MessageBox showerror (lit "Error")
                 (lit "Error al generar QR: ") (Some e))).

(** *** Import *)

(** One row of the data frame: column name to [str(cell)]. *)
Abbreviation row := (gmap pystr pystr).

Record counts := { success_count : Z; error_count : Z; skipped_count : Z }.

Definition add_success (c : counts) : counts :=
  {| success_count := success_count c + 1; error_count := error_count c;
     skipped_count := skipped_count c |}.
Definition add_error (c : counts) : counts :=
  {| success_count := success_count c; error_count := error_count c + 1;
     skipped_count := skipped_count c |}.
Definition add_skipped (c : counts) : counts :=
  {| success_count := success_count c; error_count := error_count c;
     skipped_count := skipped_count c + 1 |}.

(** How the [try] block of one iteration ends: at its last statement, or
    at [continue]. *)
Inductive flow := Next | Continue.

(** [row[col]] *)
Definition getitem (r : row) (col : pystr) : M pystr :=
  liftR (match r !! col with Some v => Ok v | None => Raise (KeyError col) end).

Definition fila (index : nat) : pystr :=
  lit "Fila " ++ str_of_Z (Z.of_nat index + 2).

Section ImportLoop.
Variables codigo_col descripcion_col personalizacion_col : pystr.
Variable total_rows : Z.

(** Lines 283-305, the body of the [try]. *)
Definition import_row_try (index : nat) (r : row) (c : counts)
  : M (counts * flow) :=
  cell <- getitem r codigo_col ;;
  let code := strip cell in
  cell <- getitem r descripcion_col ;;
  let description := strip cell in
  let personalization := strip (default [] (r !! personalizacion_col)) in
  if is_empty code || is_empty description then
    emit (Logging WARNING
            (fila index ++ lit ": código o descripción vacíos, saltando.")
            None) ;;;
    ret (add_skipped c, Continue)
  else
    qr_content <- liftR (create_qr_content code description personalization) ;;
    saved <- create_qr_code qr_content description personalization ;;
    if saved : bool then
      qr_image <- generate_qr_image qr_content QR_IMAGE_SIZE ;;
      match qr_image with
      | Some img =>
          show_qr_image img (code ++ lit " - " ++ description) ;;;
          ret (add_success c, Next)
      | None =>
          emit (Logging ERROR
                  (fila index ++ lit ": no se pudo generar la imagen QR.")
                  None) ;;;
          ret (add_error c, Next)
      end
    else
      emit (Logging ERROR
              (fila index ++ lit ": no se pudo guardar en la base de datos.")
              None) ;;;
      ret (add_error c, Next).

(** Lines 282-314, one iteration of the loop. *)
Definition import_row (index : nat) (r : row) (c : counts) : M counts :=
  cf <- try_except (import_row_try index r c)
          (λ e, match e with
                | KeyError _ =>
                    emit (Logging ERROR
                            (fila index ++ lit ": columna faltante - ")
                            (Some e)) ;;;
                    ret (add_error c, Next)
                | _ =>
                    emit (Logging ERROR
                            (fila index ++ lit ": error inesperado - ")
                            (Some e)) ;;;
                    ret (add_error c, Next)
                end) ;;
  match cf with
  | (c', Continue) => ret c'
  | (c', Next) => update_progress (Z.of_nat index + 1) total_rows ;;; ret c'
  end.

(** Lines 281-314, [for index, row in df.iterrows()], from row [index]
    on. The frame has the default index 0, 1, 2, ... *)
Fixpoint import_rows (index : nat) (df : list row) (c : counts) : M counts :=
  match df with
  | [] => ret c
  | r :: df' => c' <- import_row index r c ;; import_rows (S index) df' c'
  end.

End ImportLoop.

Definition import_message (c : counts) : pystr :=
  let message :=
    lit "Proceso completado." ++ [LF]
    ++ lit "QRs generados exitosamente: " ++ str_of_Z (success_count c) ++ [LF]
    ++ lit "Filas saltadas (vacías o sin código/descripción): "
    ++ str_of_Z (skipped_count c) in
  if (0 <? error_count c)%Z
  then message ++ [LF] ++ lit "Errores encontrados: " ++ str_of_Z (error_count c)
  else message.

(** Lines 274-330, with the frame already read and the personalization
    column resolved. *)
Definition importar_datos (df : list row)
    (codigo_col descripcion_col personalizacion_col : pystr) : M unit :=
  try_except
    (let total_rows := Z.of_nat (length df) in
     show_progress true ;;;
     c <- import_rows codigo_col descripcion_col personalizacion_col
            total_rows 0 df
            {| success_count := 0; error_count := 0; skipped_count := 0 |} ;;
     show_progress false ;;;
     messagebox showinfo (lit "Resultado de importación") (import_message c))
    (λ e,
       show_progress false ;;;
       emit (Logging ERROR
               (lit "Error general al procesar el archivo Excel: ") (Some e)) ;;;
       emit (MessageBox showerror (lit "Error")
               (lit "Error al procesar el archivo Excel: ") (Some e))).

(** Lines 253-262, the "Aceptar" button of the column dialog, with the
    frame read as for [importar_datos]. The dialog window is closed
    before the import starts. *)
Definition procesar_excel (df : list row)
    (codigo_col descripcion_col personalizacion_col : pystr) : M unit :=
  if is_empty codigo_col || is_empty descripcion_col then
    messagebox showerror (lit "Error")
      (lit "Debes seleccionar las columnas 'Código' y 'Descripción'.")
  else importar_datos df codigo_col descripcion_col personalizacion_col.

(** *** Export *)

Definition new_FPDF : FPDF :=
  {| pages := 0; cursor := None; body := [];
     auto_page_break := None; font := None |}.
Definition set_auto_page_break (auto : bool) (margin : Z) (pdf : FPDF) : FPDF :=
  {| pages := pages pdf; cursor := cursor pdf; body := body pdf;
     auto_page_break := Some (auto, margin); font := font pdf |}.
Definition set_font (family : pystr) (size : Z) (pdf : FPDF) : FPDF :=
  {| pages := pages pdf; cursor := cursor pdf; body := body pdf;
     auto_page_break := auto_page_break pdf; font := Some (family, size) |}.
Definition add_page (pdf : FPDF) : FPDF :=
  {| pages := S (pages pdf); cursor := None; body := body pdf;
     auto_page_break := auto_page_break pdf; font := font pdf |}.
Definition place (it : item) (pdf : FPDF) : FPDF :=
  {| pages := pages pdf; cursor := cursor pdf;
     body := body pdf ++ [(pred (pages pdf), it)];
     auto_page_break := auto_page_break pdf; font := font pdf |}.
Definition set_xy (x y : Z) (pdf : FPDF) : FPDF :=
  {| pages := pages pdf; cursor := Some (x, y); body := body pdf;
     auto_page_break := auto_page_break pdf; font := font pdf |}.
(** Where fpdf leaves the cursor after the text depends on how the text
    wraps; the program sets it again before it reads it. *)
Definition multi_cell (w h : Z) (txt : pystr) (pdf : FPDF) : FPDF :=
  let pdf' := place (PdfMultiCell (cursor pdf) w h txt) pdf in
  {| pages := pages pdf'; cursor := None; body := body pdf';
     auto_page_break := auto_page_break pdf'; font := font pdf' |}.

Definition caption (r : qr_row) : pystr :=
  lit "Descripción: " ++ descripcion r ++ [LF]
  ++ lit "Fecha: " ++ fecha_creacion r ++ [LF]
  ++ lit "Personalización: " ++ personalizacion r.

(** Lines 356-381, one iteration of the loop over [enumerate(qr_data)].
    The raster goes through a temporary PNG file, which is removed. *)
Definition export_record (total_qrs : Z) (i : nat) (r : qr_row) (pdf : FPDF)
  : M FPDF :=
  let pdf := if (0 <? i)%nat && (i mod 3 =? 0)%nat then add_page pdf else pdf in
  qr_image <- generate_qr_image (contenido r) 100 ;;
  match qr_image with
  | None =>
      emit (Logging ERROR
              (lit "No se pudo generar la imagen QR para el contenido del registro "
               ++ str_of_Z (Z.of_nat i + 1) ++ lit ".") None) ;;;
      ret pdf
  | Some img =>
      let current_y := (10 + Z.of_nat (i mod 3) * 90)%Z in
      pdf <- (λ w,
                if pdf_image_raises (env w) i then
                  (emit (Logging ERROR
                           (lit "Error al incluir la imagen QR en el PDF: ")
                           None) ;;; ret pdf) w
                else
                  let pdf := place (PdfImage img 10 current_y 40 40) pdf in
                  let pdf := set_xy 60 current_y pdf in
                  if pdf_multi_cell_raises (env w) i then
                    (emit (Logging ERROR
                             (lit "Error al incluir la imagen QR en el PDF: ")
                             None) ;;; ret pdf) w
                  else ret (multi_cell 0 10 (caption r) pdf) w) ;;
      update_progress (Z.of_nat i + 1) total_qrs ;;;
      ret pdf
  end.

Fixpoint export_records (total_qrs : Z) (i : nat) (qr_data : list qr_row)
    (pdf : FPDF) : M FPDF :=
  match qr_data with
  | [] => ret pdf
  | r :: rest =>
      pdf' <- export_record total_qrs i r pdf ;;
      export_records total_qrs (S i) rest pdf'
  end.

Definition pdf_output (file_path : pystr) (pdf : FPDF) : M unit :=
  emit (PdfOutput file_path pdf) ;;;
  λ w, if pdf_output_raises (env w) file_path then raise IOError w else ret tt w.

(** [file_path] is what the save dialog returns if it is asked; the
    empty string when the user cancels. *)
Definition export_pdf (file_path : pystr) : M unit :=
  try_except
    (qr_data <- get_all_qr_codes ;;
     if is_empty_list qr_data then
       messagebox showwarning (lit "Advertencia")
         (lit "No hay códigos QR para exportar a PDF.")
     else if is_empty file_path then ret tt
     else
       show_progress true ;;;
       let pdf := new_FPDF in
       let pdf := set_auto_page_break true 15 pdf in
       let pdf := add_page pdf in
       let pdf := set_font (lit "Arial") 12 pdf in
       let total_qrs := Z.of_nat (length qr_data) in
       pdf <- export_records total_qrs 0 qr_data pdf ;;
       pdf_output file_path pdf ;;;
       show_progress false ;;;
       messagebox showinfo (lit "Exportación completada")
         (lit "PDF guardado como " ++ file_path))
    (λ e,
       emit (Logging ERROR (lit "Error exporting to PDF: ") (Some e)) ;;;
       show_progress false ;;;
       emit (MessageBox showerror (lit "Error")
               (lit "No se pudo exportar a PDF: ") (Some e))).

(** [confirm] is the answer to the yes/no dialog and [qr_display] the
    cards on display, the children of [self.qr_display], one for each
    [show_qr_image]; the result is what is left of them once the
    widgets are destroyed and [self.qr_images] is cleared. *)
Definition clear_all_qrs (confirm : bool) (qr_display : list (image * pystr))
  : M (list (image * pystr)) :=
  if confirm then
    deleted <- delete_all_qr_codes ;;
    if deleted : bool then
      messagebox showinfo (lit "Borrado")
        (lit "Todos los códigos QR han sido borrados.") ;;;
      ret []
    else
      messagebox showerror (lit "Error")
        (lit "No se pudieron borrar los códigos QR.") ;;;
      ret qr_display
  else ret qr_display.

(** Lines 464-471, with [QRApp.__init__] (lines 112-119) in place of
    the constructor call: the table is created once the window is
    configured and before [create_widgets]; building the window and its
    widgets records no effect. [mainloop] is what the Tk event loop
    does. *)
Definition main (mainloop : M unit) : M unit :=
  try_except
    (initialize_database ;;; mainloop)
    (λ e,
       emit (Logging ERROR (lit "Main application error: ") (Some e)) ;;;
       emit (MessageBox showerror (lit "Error")
               (lit "Error en la aplicación principal: ") (Some e))).

End QRApp.

(** ** Vocabulary of the properties *)

Import QRApp.

(** Every character [quote] produces is an unreserved ASCII character,
    ['/'], ['%'] or an upper-case hex digit. *)
Definition is_quoted_char (c : N) : bool :=
  is_safe c || (c =? PERCENT) || ((0x41 <=? c) && (c <=? 0x46)).

(** The rows of the table, none while there is no table. *)
Definition stored (w : World) : list qr_row :=
  match db w with Some t => rows t | None => [] end.

(** The AUTOINCREMENT counter, 0 while there is no table. *)
Definition sequence (w : World) : Z :=
  match db w with Some t => seq t | None => 0%Z end.

(** Whether the next sqlite3 call fails. *)
Definition storage_down (w : World) : bool := storage_fails (env w) (calls w).

(** A database file before any statement ran on it. *)
Definition fresh (e : Env) : World :=
  {| env := e; db := None; calls := 0; trace := [] |}.

(** One call of a record store operation. *)
Inductive db_call :=
  | CallInitialize
  | CallCreate (contenido descripcion personalizacion : pystr)
  | CallListAll
  | CallDeleteAll.

Definition run_call (c : db_call) (w : World) : World :=
  match c with
  | CallInitialize => snd (DatabaseManager.initialize_database w)
  | CallCreate c d p => snd (DatabaseManager.create_qr_code c d p w)
  | CallListAll => snd (DatabaseManager.get_all_qr_codes w)
  | CallDeleteAll => snd (DatabaseManager.delete_all_qr_codes w)
  end.

(** The store after a history of calls. *)
Definition run_calls (history : list db_call) (w : World) : World :=
  foldl (λ w c, run_call c w) w history.

(** Identifiers strictly ascending. *)
Definition ascending (rs : list qr_row) : Prop :=
  StronglySorted (λ a b, (id a < id b)%Z) rs.

(** What SQLite maintains for an AUTOINCREMENT table: rows in rowid
    order, none above the counter. *)
Definition store_ok (w : World) : Prop :=
  ascending (stored w) ∧ Forall (λ r, (id r ≤ sequence w)%Z) (stored w).

(** *** Environments for the examples *)

(** Nothing fails. *)
Definition working : Env :=
  {| storage_fails := λ _, false;
     now := λ _, lit "2024-05-17 10:30:00";
     qr_fits := λ _, true;
     pdf_image_raises := λ _, false;
     pdf_multi_cell_raises := λ _, false;
     pdf_output_raises := λ _, false |}.

(** Every sqlite3 call fails. *)
Definition storage_off : Env :=
  {| storage_fails := λ _, true;
     now := now working;
     qr_fits := λ _, true;
     pdf_image_raises := λ _, false;
     pdf_multi_cell_raises := λ _, false;
     pdf_output_raises := λ _, false |}.

(** qrcode cannot encode any text. *)
Definition render_off : Env :=
  {| storage_fails := λ _, false;
     now := now working;
     qr_fits := λ _, false;
     pdf_image_raises := λ _, false;
     pdf_multi_cell_raises := λ _, false;
     pdf_output_raises := λ _, false |}.

(** The world with further effects recorded. *)
Definition logged (w : World) (evs : list effect) : World :=
  {| env := env w; db := db w; calls := calls w; trace := trace w ++ evs |}.

(** *** Vocabulary of the import *)

Section ImportSpec.
Variables codigo_col descripcion_col personalizacion_col : pystr.

(** The two mapped columns are columns of the sheet. *)
Definition has_columns (r : row) : Prop :=
  is_Some (r !! codigo_col) ∧ is_Some (r !! descripcion_col).

Definition row_code (r : row) : pystr := strip (default [] (r !! codigo_col)).
Definition row_description (r : row) : pystr :=
  strip (default [] (r !! descripcion_col)).
Definition row_personalization (r : row) : pystr :=
  strip (default [] (r !! personalizacion_col)).

(** Code and description are both non-empty after trimming. *)
Definition has_required (r : row) : bool :=
  negb (is_empty (row_code r)) && negb (is_empty (row_description r)).

(** K: the rows that have both required fields. *)
Definition count_required (df : list row) : Z :=
  Z.of_nat (length (List.filter has_required df)).

(** From world [w], the store insert of the row and the rendering of
    its content both succeed. *)
Definition insert_and_render_succeed (r : row) (w : World) : bool :=
  match QRGenerator.create_qr_content
          (row_code r) (row_description r) (row_personalization r) with
  | Ok content =>
      match fst (DatabaseManager.create_qr_code
                   content (row_description r) (row_personalization r) w) with
      | Ok true => qr_fits (env w) content
      | _ => false
      end
  | Raise _ => false
  end.

End ImportSpec.

Definition no_counts : counts :=
  {| success_count := 0; error_count := 0; skipped_count := 0 |}.

(** The dialog that reports the counters of an import. *)
Definition import_report (c : counts) : effect :=
  MessageBox showinfo (lit "Resultado de importación") (import_message c) None.

Definition is_progress (ev : effect) : bool :=
  match ev with UpdateProgress _ _ => true | _ => false end.

(** *** Sheets and stores for the examples *)

(** An initialized, empty store. *)
Definition ready (e : Env) : World :=
  snd (DatabaseManager.initialize_database (fresh e)).

Definition col_codigo : pystr := lit "Código".
Definition col_descripcion : pystr := lit "Descripción".
Definition col_personalizacion : pystr := lit "Personalización".

Definition sheet_row (code description personalization : pystr) : row :=
  {[ col_codigo := code; col_descripcion := description;
     col_personalizacion := personalization ]}.

Definition row_A1 : row := sheet_row (lit "A1") (lit "Box") [].
Definition row_B2 : row := sheet_row (lit " B2 ") (lit "Lid") (lit "red").
(** The description holds blanks only. *)
Definition row_blank : row := sheet_row (lit "C3") (lit "   ") [].
(** A row of a sheet whose only column is the code. *)
Definition row_code_only : row := {[ col_codigo := lit "A1" ]}.

(** *** Vocabulary of the export *)

(** Record [i] starts a new page. *)
Definition starts_page (i : nat) : bool := (0 <? i)%nat && (i mod 3 =? 0)%nat.

(** The vertical offset of record [i] on its page. *)
Definition offset_y (i : nat) : Z := (10 + Z.of_nat (i mod 3) * 90)%Z.

(** What record [i] leaves on its page: a 40 by 40 raster at the left
    and the caption block beside it, as far as qrcode and fpdf accept
    them. *)
Definition placed (e : Env) (i : nat) (r : qr_row) : list item :=
  if qr_fits e (contenido r) then
    if pdf_image_raises e i then []
    else
      PdfImage {| img_text := contenido r; img_size := 100 |}
        10 (offset_y i) 40 40
      :: (if pdf_multi_cell_raises e i then []
          else [PdfMultiCell (Some (60%Z, offset_y i)) 0 10 (caption r)])
  else [].

(** The document: record [i] on page [i / 3]. *)
Fixpoint layout (e : Env) (i : nat) (qr_data : list qr_row)
  : list (nat * item) :=
  match qr_data with
  | [] => []
  | r :: rest => map (pair (i / 3)%nat) (placed e i r) ++ layout e (S i) rest
  end.

(** A store that holds the given descriptions, inserted one by one. *)
Definition store_with (e : Env) (descriptions : list pystr) : World :=
  run_calls (map (λ d, CallCreate (lit "PROCHAP " ++ d) d []) descriptions)
    (ready e).

Definition is_pdf_output (ev : effect) : bool :=
  match ev with PdfOutput _ _ => true | _ => false end.

(** The content encoded for code "A1", description "Box" and no
    personalization. *)
Definition content_A1 : pystr :=
  match QRGenerator.create_qr_content (lit "A1") (lit "Box") [] with
  | Ok content => content
  | Raise _ => []
  end.

(** The warning of an export that finds nothing to export. *)
Definition nothing_to_export : effect :=
  MessageBox showwarning (lit "Advertencia")
    (lit "No hay códigos QR para exportar a PDF.") None.

(** ** Vocabulary of the further properties *)

(** Kinds of effects. *)
Definition is_dialog (ev : effect) : bool :=
  match ev with MessageBox _ _ _ _ => true | _ => false end.
Definition is_show_progress (ev : effect) : bool :=
  match ev with ShowProgress _ => true | _ => false end.
Definition is_sqlite (ev : effect) : bool :=
  match ev with Sqlite _ => true | _ => false end.
Definition is_entries_cleared (ev : effect) : bool :=
  match ev with ClearEntries => true | _ => false end.

(** The line an operation of the store logs when it fails. *)
Definition store_error (msg : pystr) : effect :=
  Logging ERROR msg (Some Sqlite3Error).

(** Only whitespace (or nothing at all). *)
Definition blank (s : pystr) : Prop := Forall (λ c, isspace c = true) s.

(** The dialogs of manual entry. *)
Definition entry_rejected : effect :=
  MessageBox showerror (lit "Error")
    (lit "Por favor ingrese un código y una descripción.") None.
Definition entry_saved : effect :=
  MessageBox showinfo (lit "Éxito")
    (lit "QR generado y guardado correctamente.") None.
Definition entry_not_rendered : effect :=
  MessageBox showerror (lit "Error") (lit "No se pudo generar la imagen QR.") None.
Definition entry_not_saved : effect :=
  MessageBox showerror (lit "Error")
    (lit "No se pudo guardar el QR en la base de datos.") None.

(** The line [generate_qr_image] logs when qrcode raises. *)
Definition render_error : effect :=
  Logging ERROR (lit "Error generating QR image: ") None.

(** The card [show_qr_image] adds for a code and its description. *)
Definition card (content code description : pystr) : effect :=
  ShowQrImage {| img_text := content; img_size := QRGenerator.QR_IMAGE_SIZE |}
    (code ++ lit " - " ++ description).

(** The cards that a run of effects puts on display. *)
Definition cards (evs : list effect) : list (image * pystr) :=
  omap (λ ev, match ev with
              | ShowQrImage img description => Some (img, description)
              | _ => None
              end) evs.

(** A record as the application writes it: the description is not
    empty, description and personalization are trimmed, and the content
    is the text formatted from a non-empty trimmed code and these two
    columns. *)
Definition well_formed (r : qr_row) : Prop :=
  descripcion r ≠ []
  ∧ strip (descripcion r) = descripcion r
  ∧ strip (personalizacion r) = personalizacion r
  ∧ ∃ code, code ≠ [] ∧ strip code = code
            ∧ QRGenerator.create_qr_content code (descripcion r)
                (personalizacion r) = Ok (contenido r).

(** The card shows a code with a record in the given rows. *)
Definition backed_by (rs : list qr_row) (cd : image * pystr) : Prop :=
  ∃ r, r ∈ rs ∧ contenido r = img_text cd.1.

Section ImportOutcome.
Variables codigo_col descripcion_col : pystr.

(** The row takes the [continue] of line 290: both cells are there, and
    the code or the description is blank. *)
Definition row_skipped (r : row) : bool :=
  match r !! codigo_col, r !! descripcion_col with
  | Some code, Some description =>
      is_empty (strip code) || is_empty (strip description)
  | _, _ => false
  end.

(** The progress updates of the loop from row [index] on: one for each
    row that is not skipped. *)
Fixpoint import_progress (total_rows : Z) (index : nat) (df : list row)
  : list effect :=
  match df with
  | [] => []
  | r :: df' =>
      (if row_skipped r then []
       else [UpdateProgress (Z.of_nat index + 1) total_rows])
      ++ import_progress total_rows (S index) df'
  end.

End ImportOutcome.

(** The progress updates of an export, from record [i] on: one for each
    record whose raster renders. *)
Fixpoint export_progress (e : Env) (total_qrs : Z) (i : nat)
    (qr_data : list qr_row) : list effect :=
  match qr_data with
  | [] => []
  | r :: rest =>
      (if qr_fits e (contenido r)
       then [UpdateProgress (Z.of_nat i + 1) total_qrs] else [])
      ++ export_progress e total_qrs (S i) rest
  end.

(** [listAll] would hand the export at least one record. *)
Definition has_records (w : World) : bool :=
  negb (storage_down w) && negb (is_empty_list (stored w)).

(** How an export ends after [pdf.output]. *)
Definition export_end (e : Env) (file_path : pystr) : list effect :=
  if pdf_output_raises e file_path then
    [Logging ERROR (lit "Error exporting to PDF: ") (Some IOError);
     ShowProgress false;
     MessageBox showerror (lit "Error") (lit "No se pudo exportar a PDF: ")
       (Some IOError)]
  else
    [ShowProgress false;
     MessageBox showinfo (lit "Exportación completada")
       (lit "PDF guardado como " ++ file_path) None].

(** Where the rasters and where the captions of a document sit: page
    and vertical offset. *)
Definition raster_slots (body : list (nat * item)) : list (nat * Z) :=
  omap (λ pi, match pi with
              | (p, PdfImage _ _ y _ _) => Some (p, y)
              | _ => None
              end) body.
Definition caption_slots (body : list (nat * item)) : list (nat * Z) :=
  omap (λ pi, match pi with
              | (p, PdfMultiCell (Some (_, y)) _ _ _) => Some (p, y)
              | _ => None
              end) body.

(** The slot of record [i]. *)
Definition slot (i : nat) : nat * Z := ((i / 3)%nat, offset_y i).

(** The dialogs of "Borrar Todo". *)
Definition all_cleared : effect :=
  MessageBox showinfo (lit "Borrado")
    (lit "Todos los códigos QR han sido borrados.") None.
Definition not_cleared : effect :=
  MessageBox showerror (lit "Error")
    (lit "No se pudieron borrar los códigos QR.") None.

(** *** Sessions *)

(** The application between two clicks: the world and the cards on
    display. *)
Record App := { world : World; qr_display : list (image * pystr) }.

(** What a call added to the trace. *)
Definition added (w w' : World) : list effect :=
  drop (length (trace w)) (trace w').

(** The buttons whose command runs in the Tk thread: "Generar y Guardar
    QR" with the texts of the three entries, "Aceptar" of the column
    dialog with the sheet and the mapping, "Borrar Todo" with the answer
    to its question. *)
Inductive click :=
  | ClickGenerate (code_entry description_entry personalization_entry : pystr)
  | ClickAceptar (df : list row)
      (codigo_col descripcion_col personalizacion_col : pystr)
  | ClickBorrarTodo (confirm : bool).

(** One click: the command runs to its end, and the cards it shows join
    the display. *)
Definition handle (a : App) (c : click) : App :=
  match c with
  | ClickGenerate code_entry description_entry personalization_entry =>
      let w' := snd (generate_and_save_qr code_entry description_entry
                       personalization_entry (world a)) in
      {| world := w';
         qr_display := qr_display a ++ cards (added (world a) w') |}
  | ClickAceptar df codigo_col descripcion_col personalizacion_col =>
      let w' := snd (procesar_excel df codigo_col descripcion_col
                       personalizacion_col (world a)) in
      {| world := w';
         qr_display := qr_display a ++ cards (added (world a) w') |}
  | ClickBorrarTodo confirm =>
      match clear_all_qrs confirm (qr_display a) (world a) with
      | (Ok kept, w') => {| world := w'; qr_display := kept |}
      | (Raise _, w') => {| world := w'; qr_display := qr_display a |}
      end
  end.

Definition session (clicks : list click) (a : App) : App :=
  foldl handle a clicks.

(** * Properties *)

(** Literals, trimming and number formatting stay folded in the proofs. *)
Arguments lit : simpl never.
Arguments strip : simpl never.
Arguments str_of_Z : simpl never.
Arguments fila : simpl never.
Arguments caption : simpl never.
Arguments import_message : simpl never.
Arguments QRGenerator.create_qr_content : simpl never.

Ltac Zify.zify_post_hook ::= Z.to_euclidean_division_equations.

(** Splits on the comparisons of the goal; the impossible branches are
    closed by arithmetic. *)
Ltac split_tests :=
  repeat match goal with
  | |- context [?a <? ?b] => destruct (N.ltb_spec a b); try lia
  | |- context [?a <=? ?b] => destruct (N.leb_spec a b); try lia
  | |- context [?a =? ?b] => destruct (N.eqb_spec a b); try lia
  end.

(** ** UTF-8 and percent-encoding *)

Example lit_codigo : lit "Código: " = [67; 243; 100; 105; 103; 111; 58; 32].
Proof. reflexivity. Qed.

Example quote_codigo :
  quote (lit "Código: A1") = Some (lit "C%C3%B3digo%3A%20A1").
Proof. reflexivity. Qed.

Example unquote_codigo :
  unquote (lit "C%C3%B3digo%3A%20A1") = Some (lit "Código: A1").
Proof. reflexivity. Qed.

Lemma utf8_encode_cp_decode c bs rest :
  utf8_encode_cp c = Some bs →
  utf8_decode (bs ++ rest) = cons c <$> utf8_decode rest.
Proof.
  unfold utf8_encode_cp.
  destruct (N.ltb_spec c 0x80).
  { intros [= <-]. simpl. split_tests. done. }
  destruct (N.ltb_spec c 0x800).
  { intros [= <-]. cbn [app utf8_decode]. unfold is_cont.
    split_tests. simpl. do 2 f_equal. lia. }
  destruct (N.ltb_spec c 0x10000).
  { destruct (N.leb_spec 0xD800 c), (N.ltb_spec c 0xE000); simpl;
      intros [= <-]; cbn [app utf8_decode]; cbv zeta; unfold is_cont.
    all: split_tests; simpl; do 2 f_equal; lia. }
  destruct (N.ltb_spec c 0x110000); [|done].
  intros [= <-]. cbn [app utf8_decode]. cbv zeta. unfold is_cont.
  split_tests; simpl; do 2 f_equal; lia.
Qed.

Lemma utf8_round_trip s bs : utf8_encode s = Some bs → utf8_decode bs = Some s.
Proof.
  revert bs. induction s as [|c s IH]; simpl; intros bs.
  - by intros [= <-].
  - destruct (utf8_encode_cp c) as [b|] eqn:Hc; [|done].
    destruct (utf8_encode s) as [bs'|]; [|done].
    intros [= <-]. rewrite (utf8_encode_cp_decode _ _ _ Hc), (IH bs') by done.
    done.
Qed.

Lemma utf8_encode_cp_scalar c : is_scalar c = true ↔ is_Some (utf8_encode_cp c).
Proof.
  unfold is_scalar, utf8_encode_cp. split.
  - split_tests; simpl; intros; (discriminate || eauto).
  - split_tests; simpl; try done; by intros [? [=]].
Qed.

Lemma utf8_encode_valid s : valid_text s ↔ is_Some (utf8_encode s).
Proof.
  induction s as [|c s IH]; simpl.
  - split; [eauto | constructor].
  - split.
    + intros [Hc Hs]%Forall_cons.
      apply utf8_encode_cp_scalar in Hc as [b ->].
      apply IH in Hs as [bs ->]. eauto.
    + destruct (utf8_encode_cp c) as [b|] eqn:Hc; [|by intros [? [=]]].
      destruct (utf8_encode s) as [bs|]; [|by intros [? [=]]].
      intros _. constructor.
      * apply utf8_encode_cp_scalar. eauto.
      * apply IH. eauto.
Qed.

Lemma valid_text_app s t : valid_text (s ++ t) ↔ valid_text s ∧ valid_text t.
Proof. apply Forall_app. Qed.

Lemma utf8_encode_cp_octets c bs :
  utf8_encode_cp c = Some bs → Forall (λ b, b < 256) bs.
Proof.
  unfold utf8_encode_cp. split_tests; simpl; intros [= <-];
    repeat constructor; lia.
Qed.

Lemma utf8_encode_octets s bs :
  utf8_encode s = Some bs → Forall (λ b, b < 256) bs.
Proof.
  revert bs. induction s as [|c s IH]; simpl; intros bs.
  - intros [= <-]. constructor.
  - destruct (utf8_encode_cp c) as [b|] eqn:Hc; [|done].
    destruct (utf8_encode s) as [bs'|]; [|done].
    intros [= <-]. apply Forall_app. split; [by eapply utf8_encode_cp_octets | eauto].
Qed.

Lemma utf8_encode_ascii s : Forall (λ c, c < 128) s → utf8_encode s = Some s.
Proof.
  induction 1 as [|c s Hc _ IH]; simpl; [done|].
  unfold utf8_encode_cp. destruct (N.ltb_spec c 0x80); [|lia]. by rewrite IH.
Qed.

Lemma hexdigit_quoted d : d < 16 → is_quoted_char (hexdigit d) = true.
Proof.
  intros. unfold is_quoted_char, is_safe, hexdigit, PERCENT.
  split_tests; reflexivity.
Qed.

Lemma quote_byte_chars b :
  b < 256 → Forall (λ c, is_quoted_char c = true) (quote_byte b).
Proof.
  intros Hb. unfold quote_byte. destruct (is_safe b) eqn:Hs.
  - repeat constructor. unfold is_quoted_char. by rewrite Hs.
  - repeat apply Forall_cons_2; [done | apply hexdigit_quoted; lia .. | constructor].
Qed.

Lemma quote_from_bytes_chars bs :
  Forall (λ b, b < 256) bs →
  Forall (λ c, is_quoted_char c = true) (quote_from_bytes bs).
Proof.
  unfold quote_from_bytes. induction 1; simpl; [constructor|].
  apply Forall_app. split; [by apply quote_byte_chars | done].
Qed.

Lemma is_quoted_char_ascii c : is_quoted_char c = true → c < 128 ∧ c ≠ LF.
Proof.
  unfold is_quoted_char, is_safe, PERCENT, LF. split_tests; simpl; (done || lia).
Qed.

Lemma hexval_hexdigit d : d < 16 → hexval (hexdigit d) = Some d.
Proof.
  intros. unfold hexval, hexdigit. split_tests; simpl; f_equal; lia.
Qed.

Lemma unquote_quote_byte b rest :
  b < 256 →
  unquote_to_bytes (quote_byte b ++ rest) = b :: unquote_to_bytes rest.
Proof.
  intros Hb. unfold quote_byte. destruct (is_safe b) eqn:Hs.
  - simpl. destruct (N.eqb_spec b PERCENT) as [->|]; [discriminate | done].
  - cbn [app unquote_to_bytes]. rewrite N.eqb_refl.
    rewrite !hexval_hexdigit by lia. f_equal. lia.
Qed.

Lemma unquote_quote_bytes bs :
  Forall (λ b, b < 256) bs → unquote_to_bytes (quote_from_bytes bs) = bs.
Proof.
  unfold quote_from_bytes. induction 1 as [|b bs Hb _ IH]; simpl; [done|].
  by rewrite unquote_quote_byte, IH.
Qed.

(** Percent-decoding what [quote] produced gives back the text. *)
Lemma unquote_quote s q : quote s = Some q → unquote q = Some s.
Proof.
  unfold quote, unquote. destruct (utf8_encode s) as [bs|] eqn:Hs; [|done].
  intros [= <-]. pose proof (utf8_encode_octets _ _ Hs) as Hbs.
  rewrite utf8_encode_ascii; simpl.
  - rewrite unquote_quote_bytes by done. by apply utf8_round_trip.
  - eapply Forall_impl; [by apply quote_from_bytes_chars|].
    intros c Hc. by apply is_quoted_char_ascii.
Qed.

Lemma quote_no_newline s q : quote s = Some q → LF ∉ q.
Proof.
  unfold quote. destruct (utf8_encode s) as [bs|] eqn:Hs; [|done].
  intros [= <-] Hin.
  pose proof (quote_from_bytes_chars _ (utf8_encode_octets _ _ Hs)) as Hq.
  rewrite Forall_forall in Hq. by destruct (is_quoted_char_ascii _ (Hq _ Hin)).
Qed.

Lemma quote_valid s : valid_text s ↔ is_Some (quote s).
Proof.
  rewrite utf8_encode_valid. unfold quote.
  destruct (utf8_encode s); simpl; split; intros [? ?]; eauto; done.
Qed.

Lemma valid_text_check s : forallb is_scalar s = true → valid_text s.
Proof.
  unfold valid_text. induction s as [|c s IH]; cbn [forallb]; [constructor|].
  intros [? ?]%andb_true_iff. constructor; [done | by apply IH].
Qed.

Lemma split_lines_single s : LF ∉ s → split_lines s = [s].
Proof.
  induction s as [|c s IH]; simpl; [done|].
  intros [Hc Hs]%not_elem_of_cons.
  destruct (N.eqb_spec c LF); [congruence|]. by rewrite IH.
Qed.

Lemma split_lines_app s t : LF ∉ s → split_lines (s ++ LF :: t) = s :: split_lines t.
Proof.
  induction s as [|c s IH]; simpl; [done|].
  intros [Hc Hs]%not_elem_of_cons.
  destruct (N.eqb_spec c LF); [congruence|]. by rewrite IH.
Qed.

Lemma not_elem_of_check (c : N) s : forallb (λ x, negb (x =? c)) s = true → c ∉ s.
Proof.
  induction s as [|x s IH]; cbn [forallb]; [intros _; apply not_elem_of_nil|].
  intros [Hx Hs]%andb_true_iff. apply not_elem_of_cons. split; [|auto].
  apply negb_true_iff, N.eqb_neq in Hx. congruence.
Qed.

(** ** QRGenerator.create_qr_content *)

Import QRGenerator.

Example create_qr_content_A1 :
  create_qr_content (lit "A1") (lit "Box") []
  = Ok (lit "PROCHAP" ++ [LF] ++ lit "Código: A1" ++ [LF]
        ++ lit "Descripción: Box" ++ [LF] ++ lit "Personalización: " ++ [LF]
        ++ lit "Compartir por WhatsApp: https://wa.me/?text="
        ++ lit "PROCHAP%0AC%C3%B3digo%3A%20A1%0ADescripci%C3%B3n%3A%20Box%0APersonalizaci%C3%B3n%3A%20").
Proof. reflexivity. Qed.

(** A lone surrogate has no UTF-8 encoding: [quote] raises. *)
Example create_qr_content_surrogate :
  create_qr_content [0xD800] (lit "Box") [] = Raise UnicodeEncodeError.
Proof. reflexivity. Qed.

(** Outside the encodable texts, [quote] raises. *)
Lemma create_qr_content_raises code description personalization :
  ¬ (valid_text code ∧ valid_text description ∧ valid_text personalization) →
  create_qr_content code description personalization = Raise UnicodeEncodeError.
Proof.
  intros Hno. unfold create_qr_content.
  destruct (quote _) as [q|] eqn:Hq; [|done].
  destruct Hno. assert (is_Some (quote
    (lit "PROCHAP" ++ [LF] ++ lit "Código: " ++ code ++ [LF]
     ++ lit "Descripción: " ++ description ++ [LF]
     ++ lit "Personalización: " ++ personalization))) as Hv by eauto.
  apply quote_valid in Hv. rewrite !valid_text_app in Hv. tauto.
Qed.

Lemma create_qr_content_text code description personalization :
  lit "PROCHAP" ++ [LF] ++ lit "Código: " ++ code ++ [LF]
    ++ lit "Descripción: " ++ description ++ [LF]
    ++ lit "Personalización: " ++ personalization
  = join [LF] (four_lines code description personalization).
Proof. unfold four_lines. cbn [join]. by rewrite <- !app_assoc. Qed.

Lemma four_lines_valid code description personalization :
  valid_text code → valid_text description → valid_text personalization →
  valid_text (join [LF] (four_lines code description personalization)).
Proof.
  intros. rewrite <- create_qr_content_text.
  rewrite !valid_text_app.
  repeat split; try done; by apply valid_text_check.
Qed.


(** ** DatabaseManager *)

Import DatabaseManager.

(** The world after a failed call: one more call, one more effect. *)
Lemma execute_down stmt w :
  storage_down w = true →
  execute stmt w
  = (Raise Sqlite3Error,
     {| env := env w; db := db w; calls := S (calls w);
        trace := trace w ++ [Sqlite stmt] |}).
Proof. unfold storage_down, execute. by intros ->. Qed.

Lemma execute_up stmt w :
  storage_down w = false →
  execute stmt w
  = match sql_run (now (env w) (calls w)) stmt (db w) with
    | Some (fetched, d') =>
        (Ok fetched, {| env := env w; db := d'; calls := S (calls w);
                        trace := trace w ++ [Sqlite stmt] |})
    | None =>
        (Raise Sqlite3Error,
         {| env := env w; db := db w; calls := S (calls w);
            trace := trace w ++ [Sqlite stmt] |})
    end.
Proof. unfold storage_down, execute. by intros ->. Qed.

Lemma max_id_bound rs : Forall (λ r, (id r ≤ max_id rs)%Z) rs.
Proof.
  induction rs as [|r rs IH]; simpl; constructor; [lia|].
  eapply Forall_impl; [exact IH|]. simpl. intros. lia.
Qed.

Lemma btree_insert_last r rs :
  Forall (λ r', (id r' < id r)%Z) rs → btree_insert r rs = rs ++ [r].
Proof.
  induction 1 as [|r' rs Hr' _ IH]; simpl; [done|].
  destruct (Z.ltb_spec (id r) (id r')); [lia | by rewrite IH].
Qed.

Lemma ascending_snoc rs r :
  ascending rs → Forall (λ r', (id r' < id r)%Z) rs → ascending (rs ++ [r]).
Proof.
  unfold ascending. induction 1 as [|r' rs Hs IH Hr']; simpl.
  - intros _. repeat constructor.
  - intros [? ?]%Forall_cons. constructor; [by apply IH|].
    apply Forall_app. split; [done | by constructor].
Qed.

(** What a successful [create_qr_code] did. *)
Lemma create_qr_code_true c d p w w1 :
  create_qr_code c d p w = (Ok true, w1) →
  ∃ t r,
    db w = Some t
    ∧ r = {| id := Z.max (max_id (rows t)) (seq t) + 1; contenido := c;
             fecha_creacion := now (env w) (calls w);
             descripcion := d; personalizacion := p |}
    ∧ (id r ≤ INT64_MAX)%Z
    ∧ db w1 = Some {| rows := rows t ++ [r]; seq := id r |}
    ∧ env w1 = env w ∧ calls w1 = S (calls w)
    ∧ trace w1 = trace w ++ [Sqlite (Insert c d p)].
Proof.
  unfold create_qr_code, try_except, bind, execute, ret, raise, emit.
  destruct (storage_fails _ _); [done|].
  destruct (db w) as [t|] eqn:Hdb; simpl; [|done].
  destruct (Z.ltb_spec INT64_MAX (Z.max (max_id (rows t)) (seq t) + 1));
    simpl; [done|].
  intros [= <-]. eexists t, _. split_and!; try done.
  simpl. rewrite btree_insert_last; [done|].
  eapply Forall_impl; [apply max_id_bound|]. simpl. intros. lia.
Qed.

(** [create_qr_code] answers [True] or [False]; on [False] the file is
    as it was. *)
Lemma create_qr_code_total c d p w :
  ∃ ok w1, create_qr_code c d p w = (Ok ok, w1)
           ∧ env w1 = env w
           ∧ (ok = false → db w1 = db w).
Proof.
  unfold create_qr_code, try_except, bind, execute, ret, raise, emit.
  destruct (storage_fails _ _); simpl;
    [by eexists _, _; split_and!; [reflexivity | |] |].
  destruct (db w) as [t|]; simpl;
    [| by eexists _, _; split_and!; [reflexivity | |]].
  destruct (_ <? _)%Z; simpl; by eexists _, _; split_and!; [reflexivity | |].
Qed.

Lemma get_all_qr_codes_up w :
  storage_down w = false →
  get_all_qr_codes w
  = (Ok (stored w),
     {| env := env w; db := db w; calls := S (calls w);
        trace := trace w ++
          match db w with
          | Some _ => [Sqlite SelectAll]
          | None => [Sqlite SelectAll;
                     Logging ERROR (lit "Error fetching QRs: ") (Some Sqlite3Error)]
          end |}).
Proof.
  intros Hup. unfold get_all_qr_codes, try_except. rewrite execute_up by done.
  unfold stored. destruct (db w) as [t|]; simpl; [done|].
  unfold bind, emit, ret. simpl. by rewrite <- app_assoc.
Qed.

Lemma get_all_qr_codes_down w :
  storage_down w = true →
  get_all_qr_codes w
  = (Ok [],
     {| env := env w; db := db w; calls := S (calls w);
        trace := trace w ++
          [Sqlite SelectAll;
           Logging ERROR (lit "Error fetching QRs: ") (Some Sqlite3Error)] |}).
Proof.
  intros Hdown. unfold get_all_qr_codes, try_except. rewrite execute_down by done.
  unfold bind, emit, ret. simpl. by rewrite <- app_assoc.
Qed.

Lemma delete_all_qr_codes_true w w1 :
  delete_all_qr_codes w = (Ok true, w1) →
  ∃ t, db w = Some t ∧ db w1 = Some {| rows := []; seq := seq t |}
       ∧ env w1 = env w.
Proof.
  unfold delete_all_qr_codes, try_except, bind, execute, ret, raise, emit.
  destruct (storage_fails _ _); [done|].
  destruct (db w) as [t|]; simpl; [|done].
  intros [= <-]. eauto.
Qed.

(** Each operation keeps the invariant and never lowers the counter. *)
Lemma run_call_store_ok c w :
  store_ok w → store_ok (run_call c w) ∧ (sequence w ≤ sequence (run_call c w))%Z.
Proof.
  intros [Hasc Hle]. destruct c as [|c d p| |]; simpl.
  - unfold store_ok, stored, sequence in *.
    unfold initialize_database, try_except, bind, execute, ret, raise, emit.
    destruct (storage_fails _ _); simpl; [done|].
    destruct (db w); simpl; split_and!; try done; by constructor.
  - destruct (create_qr_code_total c d p w) as ([|] & w1 & Hrun & _ & Hdb);
      rewrite Hrun; simpl.
    + apply create_qr_code_true in Hrun
        as (t & r & Ht & Hr & _ & Hdb1 & _).
      unfold store_ok, stored, sequence in *. rewrite Hdb1, Ht in *. simpl.
      assert (Forall (λ r', (id r' < id r)%Z) (rows t)) as Hlt.
      { eapply Forall_impl; [exact Hle|]. simpl. intros. subst r. simpl. lia. }
      split_and!.
      * by apply ascending_snoc.
      * apply Forall_app. split; [|by repeat constructor].
        eapply Forall_impl; [exact Hlt|]. simpl. intros. lia.
      * subst r. simpl. lia.
    + unfold store_ok, stored, sequence in *. by rewrite Hdb.
  - destruct (storage_down w) eqn:Hs.
    + rewrite get_all_qr_codes_down by done. done.
    + rewrite get_all_qr_codes_up by done. done.
  - unfold store_ok, stored, sequence in *.
    unfold delete_all_qr_codes, try_except, bind, execute, ret, raise, emit.
    destruct (storage_fails _ _); simpl; [done|].
    destruct (db w); simpl; split_and!; try done; by constructor.
Qed.

Lemma fresh_store_ok e : store_ok (fresh e).
Proof. split; constructor. Qed.

Lemma run_calls_app h1 h2 w : run_calls (h1 ++ h2) w = run_calls h2 (run_calls h1 w).
Proof. apply foldl_app. Qed.

Lemma run_calls_store_ok history w :
  store_ok w →
  store_ok (run_calls history w) ∧ (sequence w ≤ sequence (run_calls history w))%Z.
Proof.
  revert w. induction history as [|c h IH]; simpl; intros w Hw; [done|].
  destruct (run_call_store_ok c w Hw) as [Hw' ?].
  destruct (IH _ Hw'). split; [done | lia].
Qed.

Lemma run_calls_earlier e earlier history r' :
  earlier `prefix_of` history →
  r' ∈ stored (run_calls earlier (fresh e)) →
  (id r' ≤ sequence (run_calls history (fresh e)))%Z.
Proof.
  intros [later ->] Hin. rewrite run_calls_app.
  destruct (run_calls_store_ok earlier (fresh e) (fresh_store_ok e)) as [Hok _].
  destruct (run_calls_store_ok later _ Hok) as [_ Hseq].
  destruct Hok as [_ Hle]. rewrite Forall_forall in Hle.
  specialize (Hle _ Hin). lia.
Qed.

(** C5. After any history of calls on a fresh database file, [listAll]
    returns the records in ascending identifier order; and when a
    create succeeds, the new record is appended after the records already
    stored (insertion order), it carries the given content, its
    identifier is strictly greater than the identifier of every record
    stored at any earlier point of the history, and [listAll] right
    after it returns the earlier records followed by the new one. *)
Theorem list_all_insertion_order (e : Env) (history : list db_call) :
  let w := run_calls history (fresh e) in
  (∃ rs, fst (get_all_qr_codes w) = Ok rs ∧ ascending rs
         ∧ (storage_down w = false → rs = stored w))
  ∧ ∀ c d p w1,
      create_qr_code c d p w = (Ok true, w1) →
      ∃ r,
        contenido r = c ∧ descripcion r = d ∧ personalizacion r = p
        ∧ stored w1 = stored w ++ [r]
        ∧ ascending (stored w1)
        ∧ (∀ earlier r',
             earlier `prefix_of` history →
             r' ∈ stored (run_calls earlier (fresh e)) →
             (id r' < id r)%Z)
        ∧ (storage_down w1 = false →
           fst (get_all_qr_codes w1) = Ok (stored w ++ [r])).
Proof.
  intros w.
  destruct (run_calls_store_ok history (fresh e) (fresh_store_ok e))
    as [[Hasc Hle] _]. fold w in Hasc, Hle.
  split.
  - destruct (storage_down w) eqn:Hs.
    + rewrite get_all_qr_codes_down by done. simpl.
      eexists; split_and!; [done | constructor | done].
    + rewrite get_all_qr_codes_up by done. simpl. eauto.
  - intros c d p w1 Hrun.
    pose proof (run_call_store_ok (CallCreate c d p) w (conj Hasc Hle))
      as [[Hasc1 _] _].
    simpl in Hasc1. rewrite Hrun in Hasc1. simpl in Hasc1.
    apply create_qr_code_true in Hrun
      as (t & r & Ht & Hr & _ & Hdb1 & _).
    assert (stored w1 = stored w ++ [r]) as Hst.
    { unfold stored. by rewrite Hdb1, Ht. }
    exists r. split_and!; try by subst r.
    + intros earlier r' Hpre Hin.
      pose proof (run_calls_earlier e _ _ _ Hpre Hin) as Hb. fold w in Hb.
      unfold sequence in Hb. rewrite Ht in Hb. subst r. simpl. lia.
    + intros Hup. rewrite get_all_qr_codes_up by done. simpl. by rewrite Hst.
Qed.

(** C7. Whatever the store holds, a [deleteAll] that reports success
    leaves no record, and the [listAll] that follows returns the empty
    list; [deleteAll] succeeds whenever the table exists and the storage
    works. *)
Theorem delete_all_then_list_all (w : World) :
  (storage_down w = false → is_Some (db w) →
   fst (delete_all_qr_codes w) = Ok true)
  ∧ ∀ w1, delete_all_qr_codes w = (Ok true, w1) →
          stored w1 = [] ∧ fst (get_all_qr_codes w1) = Ok [].
Proof.
  split.
  - intros Hup [t Ht]. unfold delete_all_qr_codes, try_except, bind.
    rewrite execute_up by done. by rewrite Ht.
  - intros w1 (t & Ht & Hdb1 & _)%delete_all_qr_codes_true.
    assert (stored w1 = []) as Hst by (unfold stored; by rewrite Hdb1).
    split; [done|]. destruct (storage_down w1) eqn:Hs.
    + by rewrite get_all_qr_codes_down.
    + rewrite get_all_qr_codes_up by done. simpl. by rewrite Hst.
Qed.



(** ** QRApp.generate_and_save_qr *)

Lemma is_empty_nil s : is_empty s = true ↔ s = [].
Proof. by destruct s. Qed.

(** C8. In manual entry, when the code or the description is empty
    after trimming, the only thing that happens is the error dialog: no
    sqlite3 call, no rendering, and the store is as it was. *)
Theorem manual_entry_validation
    (code_entry description_entry personalization_entry : pystr) (w : World) :
  strip code_entry = [] ∨ strip description_entry = [] →
  generate_and_save_qr code_entry description_entry personalization_entry w
  = (Ok tt,
     logged w [MessageBox showerror (lit "Error")
                 (lit "Por favor ingrese un código y una descripción.") None]).
Proof.
  intros H. unfold generate_and_save_qr.
  assert (is_empty (strip code_entry) || is_empty (strip description_entry)
          = true) as ->; [|done].
  apply orb_true_iff. by rewrite !is_empty_nil.
Qed.

(** ** QRApp.importar_datos *)

Section ImportProps.
Variables codigo_col descripcion_col personalizacion_col : pystr.
Variable total_rows : Z.

Local Abbreviation imp_row :=
  (import_row codigo_col descripcion_col personalizacion_col total_rows).
Local Abbreviation imp_rows :=
  (import_rows codigo_col descripcion_col personalizacion_col total_rows).
Local Abbreviation with_columns := (has_columns codigo_col descripcion_col).
Local Abbreviation required := (has_required codigo_col descripcion_col).
Local Abbreviation succeeds :=
  (insert_and_render_succeed codigo_col descripcion_col personalizacion_col).

(** A row without its two required fields: counted as skipped, logged,
    and nothing else. *)
Lemma import_row_skipped index r c w :
  with_columns r → required r = false →
  imp_row index r c w
  = (Ok (add_skipped c),
     logged w [Logging WARNING
                 (fila index ++ lit ": código o descripción vacíos, saltando.")
                 None]).
Proof.
  intros [[code Hc] [desc Hd]] Hreq.
  unfold has_required, row_code, row_description in Hreq.
  rewrite Hc, Hd in Hreq. simpl in Hreq.
  unfold import_row, try_except, import_row_try, bind, getitem, liftR.
  rewrite Hc, Hd.
  assert (is_empty (strip code) || is_empty (strip desc) = true) as ->; [|done].
  by destruct (is_empty (strip code)), (is_empty (strip desc)).
Qed.

(** A row with both required fields: counted once, as success exactly
    when insert and render both succeed; progress is reported last. *)
Lemma import_row_attempted index r c w :
  with_columns r → required r = true →
  ∃ w' extra,
    imp_row index r c w
    = (Ok (if succeeds r w then add_success c else add_error c), w')
    ∧ env w' = env w
    ∧ stored w' = stored w ++ extra
    ∧ last (trace w') = Some (UpdateProgress (Z.of_nat index + 1) total_rows).
Proof.
  intros [[code Hc] [desc Hd]] Hreq.
  unfold has_required, insert_and_render_succeed, row_code,
    row_description, row_personalization in *.
  rewrite Hc, Hd in *. simpl in Hreq |- *.
  unfold import_row, try_except, import_row_try, bind, getitem, liftR.
  rewrite Hc, Hd.
  assert (is_empty (strip code) || is_empty (strip desc) = false) as ->.
  { by destruct (is_empty (strip code)), (is_empty (strip desc)). }
  destruct (QRGenerator.create_qr_content _ _ _) as [content|e].
  - destruct (create_qr_code_total content (strip desc)
                (strip (default [] (r !! personalizacion_col))) w)
      as (ok & w1 & Hrun & Henv1 & Hfalse).
    rewrite Hrun. simpl. destruct ok.
    + apply create_qr_code_true in Hrun
        as (t & rec & Ht & _ & _ & Hdb1 & _ & _ & Htr1).
      unfold QRGenerator.generate_qr_image, bind, emit, ret. simpl.
      rewrite Henv1.
      assert (stored w1 = stored w ++ [rec]) as Hst
        by (unfold stored; by rewrite Hdb1, Ht).
      destruct (qr_fits (env w) content); simpl;
        eexists _, [rec]; (split_and!; [done | done | done | apply last_snoc]).
    + unfold emit, ret, update_progress. simpl.
      eexists _, []. split_and!; [done | done | | apply last_snoc].
      simpl. unfold stored. rewrite Hfalse by done. by rewrite app_nil_r.
  - destruct e; simpl; eexists _, [];
      (split_and!; [done | done | by rewrite app_nil_r | apply last_snoc]).
Qed.

(** A mapped column that the sheet does not have: [row[col]] raises
    [KeyError], and the row is counted as an error. *)
Lemma import_row_missing_column index r c w :
  ¬ with_columns r →
  ∃ w',
    imp_row index r c w = (Ok (add_error c), w')
    ∧ env w' = env w ∧ db w' = db w
    ∧ last (trace w') = Some (UpdateProgress (Z.of_nat index + 1) total_rows).
Proof.
  intros Hno.
  unfold import_row, try_except, import_row_try, bind, getitem, liftR.
  destruct (r !! codigo_col) as [code|] eqn:Hc; simpl.
  - destruct (r !! descripcion_col) as [desc|] eqn:Hd; simpl.
    + destruct Hno. unfold has_columns. rewrite Hc, Hd. eauto.
    + eexists. split_and!; [done | done | done | apply last_snoc].
  - eexists. split_and!; [done | done | done | apply last_snoc].
Qed.

Lemma has_columns_dec r : with_columns r ∨ ¬ with_columns r.
Proof.
  unfold has_columns.
  destruct (r !! codigo_col), (r !! descripcion_col);
    (by left; eauto) || (right; intros [[? ?] [? ?]]; done).
Qed.

(** One iteration always ends normally, changes no counter but one, by
    one, and only ever adds records. *)
Lemma import_row_any index r c w :
  ∃ c' w' extra,
    imp_row index r c w = (Ok c', w')
    ∧ env w' = env w
    ∧ stored w' = stored w ++ extra
    ∧ (c' = add_success c ∨ c' = add_error c ∨ c' = add_skipped c).
Proof.
  destruct (has_columns_dec r) as [Hcols|Hno].
  - destruct (required r) eqn:Hreq.
    + destruct (import_row_attempted index r c w Hcols Hreq)
        as (w' & extra & -> & ? & ? & _).
      eexists _, _, _. split_and!; [done | done | done |].
      destruct (succeeds r w); auto.
    + rewrite import_row_skipped by done.
      eexists _, _, []. split_and!; [done | done | by rewrite app_nil_r | auto].
  - destruct (import_row_missing_column index r c w Hno)
      as (w' & -> & ? & Hdb & _).
    eexists _, _, []. split_and!; [done | done | | auto].
    unfold stored. by rewrite Hdb, app_nil_r.
Qed.

Lemma import_rows_any index df c w :
  ∃ c' w' extra,
    imp_rows index df c w = (Ok c', w')
    ∧ env w' = env w
    ∧ stored w' = stored w ++ extra
    ∧ (success_count c ≤ success_count c')%Z
    ∧ (error_count c ≤ error_count c')%Z
    ∧ (skipped_count c ≤ skipped_count c')%Z.
Proof.
  revert index c w. induction df as [|r df IH]; intros index c w; simpl.
  - eexists _, _, []. unfold ret. split_and!; try done. by rewrite app_nil_r.
  - unfold bind.
    destruct (import_row_any index r c w) as (c1 & w1 & ex1 & -> & He1 & Hs1 & Hc1).
    destruct (IH (S index) c1 w1) as (c2 & w2 & ex2 & -> & He2 & Hs2 & ? & ? & ?).
    eexists _, _, (ex1 ++ ex2). split_and!; [done | congruence | | | |].
    + by rewrite Hs2, Hs1, app_assoc.
    + destruct Hc1 as [->|[->| ->]]; simpl in *; lia.
    + destruct Hc1 as [->|[->| ->]]; simpl in *; lia.
    + destruct Hc1 as [->|[->| ->]]; simpl in *; lia.
Qed.

(** The counters after the loop, over rows that have the mapped columns:
    skipped grows by the rows without both required fields, and success
    plus error by the rows with them. *)
Lemma import_rows_counts index df c w :
  Forall with_columns df →
  ∃ c' w',
    imp_rows index df c w = (Ok c', w')
    ∧ (skipped_count c'
       = skipped_count c + (Z.of_nat (length df)
                            - count_required codigo_col descripcion_col df))%Z
    ∧ (success_count c' + error_count c'
       = success_count c + error_count c
         + count_required codigo_col descripcion_col df)%Z.
Proof.
  intros Hcols. revert index c w.
  induction Hcols as [|r df Hr _ IH]; intros index c w.
  - simpl. unfold ret, count_required. simpl. eexists _, _. split_and!; [done | lia..].
  - cbn [QRApp.import_rows]. unfold bind, count_required. cbn [List.filter length].
    destruct (required r) eqn:Hreq.
    + destruct (import_row_attempted index r c w Hr Hreq)
        as (w1 & extra & -> & _).
      destruct (IH (S index)
                  (if succeeds r w then add_success c else add_error c) w1)
        as (c2 & w2 & -> & Hsk & Hse).
      eexists _, _. split; [done|]. unfold count_required in *.
      destruct (succeeds r w); simpl in *; lia.
    + rewrite import_row_skipped by done.
      destruct (IH (S index) (add_skipped c)
                  (logged w [Logging WARNING
                     (fila index ++ lit ": código o descripción vacíos, saltando.")
                     None]))
        as (c2 & w2 & -> & Hsk & Hse).
      eexists _, _. split; [done|]. unfold count_required in *.
      simpl in *. lia.
Qed.

End ImportProps.

Example import_five_rows :
  last (trace (snd (importar_datos [row_A1; row_B2; row_blank; row_A1; row_B2]
                      col_codigo col_descripcion col_personalizacion
                      (ready working))))
  = Some (import_report
            {| success_count := 4; error_count := 0; skipped_count := 1 |}).
Proof. vm_compute. reflexivity. Qed.

(** A mapped name that is no column label of the sheet (a typed name,
    or a numeric header, which the combobox hands back as text): every
    row is an error and none is skipped. *)
Example import_unknown_column :
  last (trace (snd (importar_datos [row_A1; row_blank]
                      (lit "Codigo") col_descripcion col_personalizacion
                      (ready working))))
  = Some (import_report
            {| success_count := 0; error_count := 2; skipped_count := 0 |}).
Proof. vm_compute. reflexivity. Qed.



(** C4 fails on a skipped row: of two rows, the second one with a blank
    description, only the first one is followed by a progress update;
    [(2, 2)] is never issued. *)
Theorem import_progress_skipped_row :
  ∃ w',
    importar_datos [row_A1; row_blank]
      col_codigo col_descripcion col_personalizacion (ready working)
    = (Ok tt, w')
    ∧ last (trace w')
      = Some (import_report
                {| success_count := 1; error_count := 0; skipped_count := 1 |})
    ∧ List.filter is_progress (trace w') = [UpdateProgress 1 2].
Proof. eexists. split_and!; [vm_compute; reflexivity | done | done]. Qed.

Example import_render_failure :
  let w' := snd (importar_datos [row_A1]
                   col_codigo col_descripcion col_personalizacion
                   (ready render_off)) in
  last (trace w')
  = Some (import_report
            {| success_count := 0; error_count := 1; skipped_count := 0 |})
  ∧ map descripcion (stored w') = [lit "Box"].
Proof. vm_compute. done. Qed.


(** ** QRApp.export_pdf *)

Lemma export_record_spec total_qrs i r pdf w :
  ∃ pdf' w',
    export_record total_qrs i r pdf w = (Ok pdf', w')
    ∧ env w' = env w ∧ db w' = db w ∧ calls w' = calls w
    ∧ pages pdf' = (if starts_page i then S (pages pdf) else pages pdf)
    ∧ body pdf' = body pdf ++ map (pair (pred (pages pdf'))) (placed (env w) i r).
Proof.
  unfold export_record, placed, QRGenerator.generate_qr_image, bind, emit, ret,
    update_progress.
  fold (starts_page i). fold (offset_y i).
  destruct (starts_page i); simpl;
    (destruct (qr_fits (env w) (contenido r)); simpl;
     [destruct (pdf_image_raises (env w) i); simpl;
      [|destruct (pdf_multi_cell_raises (env w) i); simpl] |]);
    eexists _, _; (split_and!; [done..|]); simpl;
    by rewrite ?app_nil_r, <- ?app_assoc.
Qed.

Lemma export_records_spec total_qrs qr_data : ∀ i pdf w,
  pages pdf = (if i is 0 then 1 else (i - 1) / 3 + 1)%nat →
  ∃ pdf' w',
    export_records total_qrs i qr_data pdf w = (Ok pdf', w')
    ∧ env w' = env w ∧ db w' = db w ∧ calls w' = calls w
    ∧ pages pdf' = (let n := i + length qr_data in
                    if n is 0 then 1 else (n - 1) / 3 + 1)%nat
    ∧ body pdf' = body pdf ++ layout (env w) i qr_data.
Proof.
  induction qr_data as [|r rest IH]; intros i pdf w Hpages; simpl.
  - eexists _, _. unfold ret. split_and!; try done.
    + by rewrite Nat.add_0_r.
    + by rewrite app_nil_r.
  - unfold bind.
    destruct (export_record_spec total_qrs i r pdf w)
      as (pdf1 & w1 & -> & He1 & Hd1 & Hc1 & Hp1 & Hb1).
    assert (pages pdf1 = i / 3 + 1)%nat as Hpg.
    { rewrite Hp1, Hpages. unfold starts_page.
      destruct i as [|i]; [done|].
      replace (S i - 1)%nat with i by lia.
      change (0 <? S i)%nat with true. cbn [andb].
      pose proof (Nat.div_mod_eq i 3). pose proof (Nat.div_mod_eq (S i) 3).
      pose proof (Nat.mod_upper_bound i 3).
      pose proof (Nat.mod_upper_bound (S i) 3).
      destruct (Nat.eqb_spec (S i mod 3) 0); lia. }
    destruct (IH (S i) pdf1 w1) as (pdf2 & w2 & -> & He2 & Hd2 & Hc2 & Hp2 & Hb2).
    { rewrite Hpg. replace (S i - 1)%nat with i by lia. done. }
    eexists _, _. split_and!; [done | congruence.. | |].
    + rewrite Hp2. by replace (S i + length rest)%nat
        with (i + S (length rest))%nat by lia.
    + rewrite Hb2, Hb1, He1, Hpg, <- app_assoc.
      by replace (pred (i / 3 + 1))%nat with (i / 3)%nat by lia.
Qed.

Lemma layout_lookup e qr_data : ∀ first k r it,
  qr_data !! k = Some r → it ∈ placed e (first + k) r →
  (((first + k) / 3)%nat, it) ∈ layout e first qr_data.
Proof.
  induction qr_data as [|r0 rest IH]; intros first k r it Hk Hit; [done|].
  simpl. apply elem_of_app. destruct k as [|k]; simpl in Hk.
  - injection Hk as ->. left. rewrite Nat.add_0_r in *.
    apply list_elem_of_fmap. eauto.
  - right. replace (first + S k)%nat with (S first + k)%nat in * by lia.
    by eapply IH.
Qed.

Lemma pages_ceiling (M : nat) :
  (0 < M)%nat →
  ((M - 1) / 3 + 1 = (M + 2) / 3
   ∧ 3 * ((M + 2) / 3 - 1) < M ≤ 3 * ((M + 2) / 3))%nat.
Proof.
  intros.
  pose proof (Nat.div_mod_eq (M - 1) 3). pose proof (Nat.div_mod_eq (M + 2) 3).
  pose proof (Nat.mod_upper_bound (M - 1) 3).
  pose proof (Nat.mod_upper_bound (M + 2) 3). lia.
Qed.

Example export_four_records :
  let '(_, w') := export_pdf (lit "qr.pdf")
                    (store_with working [lit "a"; lit "b"; lit "c"; lit "d"]) in
  map (λ ev, match ev with
             | PdfOutput _ pdf =>
                 (pages pdf,
                  omap (λ pi, match pi with
                              | (p, PdfImage _ x y w h) => Some (p, y)
                              | _ => None
                              end) (body pdf))
             | _ => (0%nat, [])
             end) (List.filter is_pdf_output (trace w'))
  = [(2%nat, [(0%nat, 10%Z); (0%nat, 100%Z); (0%nat, 190%Z); (1%nat, 10%Z)])].
Proof. vm_compute. reflexivity. Qed.

(** With records to export and a file chosen, [export_pdf] runs the
    loop on a document with its first page started and hands the result
    to [pdf.output]; it ends normally whether or not the file can be
    written. *)
Lemma export_pdf_run file_path w :
  storage_down w = false → stored w ≠ [] → file_path ≠ [] →
  ∃ w0 pdf w1 w',
    env w0 = env w
    ∧ export_records (Z.of_nat (length (stored w))) 0 (stored w)
        (set_font (lit "Arial") 12
           (add_page (set_auto_page_break true 15 new_FPDF))) w0
      = (Ok pdf, w1)
    ∧ export_pdf file_path w = (Ok tt, w')
    ∧ PdfOutput file_path pdf ∈ trace w'.
Proof.
  intros Hup Hne Hpath.
  unfold export_pdf, try_except, bind.
  rewrite get_all_qr_codes_up by done.
  assert (is_empty_list (stored w) = false) as -> by by destruct (stored w).
  assert (is_empty file_path = false) as -> by by destruct file_path.
  unfold show_progress, emit at 1.
  match goal with
  | |- context [export_records ?t ?i ?d ?p ?w0] =>
      destruct (export_records_spec t d i p w0 eq_refl)
        as (pdf & w1 & Hrun & He1 & _);
      exists w0, pdf, w1
  end.
  rewrite Hrun. unfold pdf_output, bind, emit, ret, raise, messagebox. simpl.
  destruct (pdf_output_raises (env w1) file_path); simpl;
    eexists; (split_and!; [done | done | done |]); simpl;
    rewrite !elem_of_app, !list_elem_of_singleton; tauto.
Qed.


Example export_cancelled :
  List.filter is_pdf_output
    (trace (snd (export_pdf [] (store_with working [lit "a"])))) = [].
Proof. vm_compute. reflexivity. Qed.

(** C10. Under a storage failure [listAll] returns the empty list, the
    very value it returns for a store without records, and a PDF export
    then takes the path of the empty record set: besides the failed
    sqlite3 call and its log line, the warning dialog is all that
    happens (no file is written, no error is reported), exactly as an
    export from a store without records ends with that warning. *)
Theorem list_all_failure_looks_empty (w : World) :
  storage_down w = true →
  fst (get_all_qr_codes w) = Ok []
  ∧ (∀ w0, storage_down w0 = false → stored w0 = [] →
           fst (get_all_qr_codes w0) = Ok []
           ∧ ∀ file_path,
               fst (export_pdf file_path w0) = Ok tt
               ∧ last (trace (snd (export_pdf file_path w0)))
                 = Some nothing_to_export
               ∧ List.filter is_pdf_output (trace (snd (export_pdf file_path w0)))
                 = List.filter is_pdf_output (trace w0))
  ∧ ∀ file_path,
      export_pdf file_path w
      = (Ok tt,
         {| env := env w; db := db w; calls := S (calls w);
            trace := trace w ++
              [Sqlite SelectAll;
               Logging ERROR (lit "Error fetching QRs: ") (Some Sqlite3Error);
               nothing_to_export] |}).
Proof.
  intros Hdown. split_and!.
  - by rewrite get_all_qr_codes_down.
  - intros w0 Hup Hempty. split.
    + rewrite get_all_qr_codes_up by done. simpl. by rewrite Hempty.
    + intros file_path. unfold export_pdf, try_except, bind.
      rewrite get_all_qr_codes_up by done. rewrite Hempty.
      cbn [is_empty_list]. unfold messagebox, emit. cbn [fst snd trace].
      split_and!; [done | apply last_snoc |].
      rewrite !List.filter_app. cbn [List.filter is_pdf_output nothing_to_export].
      rewrite app_nil_r.
      destruct (db w0); cbn [List.filter is_pdf_output]; by rewrite app_nil_r.
  - intros file_path. unfold export_pdf, try_except, bind.
    rewrite get_all_qr_codes_down by done.
    cbn [is_empty_list]. unfold messagebox, emit. cbn [trace env db calls].
    by rewrite <- app_assoc.
Qed.

(** ** The theorems at concrete inputs *)




Lemma list_all_insertion_order_witness :
  let history := [CallInitialize; CallCreate (lit "first") (lit "one") []] in
  let w := run_calls history (fresh working) in
  let w1 := snd (create_qr_code (lit "second") (lit "two") [] w) in
  create_qr_code (lit "second") (lit "two") [] w = (Ok true, w1)
  ∧ ∃ r, contenido r = lit "second" ∧ stored w1 = stored w ++ [r]
         ∧ ascending (stored w1).
Proof.
  intros history w w1.
  assert (create_qr_code (lit "second") (lit "two") [] w = (Ok true, w1)) as H
    by reflexivity.
  split; [exact H|].
  destruct (list_all_insertion_order working history) as [_ Hcreate].
  destruct (Hcreate _ _ _ _ H) as (r & Hc & _ & _ & Hst & Hasc & _).
  exists r. split_and!; [exact Hc | exact Hst | exact Hasc].
Defined.


Lemma delete_all_then_list_all_witness :
  let w := store_with working [lit "a"; lit "b"] in
  let w1 := snd (delete_all_qr_codes w) in
  length (stored w) = 2%nat
  ∧ delete_all_qr_codes w = (Ok true, w1)
  ∧ stored w1 = [] ∧ fst (get_all_qr_codes w1) = Ok [].
Proof.
  intros w w1.
  assert (delete_all_qr_codes w = (Ok true, w1)) as H by reflexivity.
  split; [reflexivity|]. split; [exact H|].
  exact (proj2 (delete_all_then_list_all w) w1 H).
Defined.

Lemma manual_entry_validation_witness :
  (strip (lit "A1") = [] ∨ strip (lit "   ") = [])
  ∧ generate_and_save_qr (lit "A1") (lit "   ") (lit "red") (ready working)
    = (Ok tt,
       logged (ready working)
         [MessageBox showerror (lit "Error")
            (lit "Por favor ingrese un código y una descripción.") None]).
Proof.
  assert (strip (lit "A1") = [] ∨ strip (lit "   ") = []) as H
    by (right; reflexivity).
  split; [exact H|].
  exact (manual_entry_validation (lit "A1") (lit "   ") (lit "red")
           (ready working) H).
Defined.


Lemma list_all_failure_looks_empty_witness :
  let w := fresh storage_off in
  storage_down w = true
  ∧ fst (get_all_qr_codes w) = Ok []
  ∧ fst (export_pdf (lit "qr.pdf") w) = Ok tt.
Proof.
  intros w.
  assert (storage_down w = true) as H by reflexivity.
  split; [exact H|].
  destruct (list_all_failure_looks_empty w H) as (Hlist & _ & Hexp).
  split; [exact Hlist|]. by rewrite Hexp.
Defined.

(** * Further properties *)

(** ** The record store between calls *)

(** A successful insert, whatever the table held: the new row carries
    an identifier above every row and above the counter, so it goes
    last. *)
Lemma create_qr_code_spec c d p w :
  ∃ ok w1,
    create_qr_code c d p w = (Ok ok, w1)
    ∧ env w1 = env w ∧ calls w1 = S (calls w)
    ∧ trace w1
      = trace w ++ Sqlite (Insert c d p)
          :: (if ok then []
              else [store_error (lit "Error creating QR in DB: ")])
    ∧ if ok then
        ∃ r, stored w1 = stored w ++ [r]
             ∧ contenido r = c ∧ descripcion r = d ∧ personalizacion r = p
             ∧ fecha_creacion r = now (env w) (calls w)
             ∧ id r = sequence w1
             ∧ (sequence w < id r)%Z
             ∧ Forall (λ r', (id r' < id r)%Z) (stored w)
             ∧ is_Some (db w) ∧ storage_down w = false
      else db w1 = db w.
Proof.
  unfold create_qr_code, try_except, bind, execute, ret, raise, emit,
    storage_down, stored, sequence, store_error.
  destruct (storage_fails _ _); simpl.
  { eexists false, _. split_and!; try done. simpl. by rewrite <- app_assoc. }
  destruct (db w) as [t|]; simpl.
  2:{ eexists false, _. split_and!; try done. simpl. by rewrite <- app_assoc. }
  destruct (Z.ltb_spec INT64_MAX (Z.max (max_id (rows t)) (seq t) + 1)); simpl.
  { eexists false, _. split_and!; try done. simpl. by rewrite <- app_assoc. }
  assert (Forall (λ r', (id r' < Z.max (max_id (rows t)) (seq t) + 1)%Z) (rows t))
    as Hlt.
  { eapply Forall_impl; [apply max_id_bound|]. simpl. intros. lia. }
  eexists true, _. split_and!; try done. simpl.
  rewrite btree_insert_last by done.
  eexists. split_and!; try done; simpl; lia.
Qed.

Lemma delete_all_qr_codes_spec w :
  ∃ ok w1,
    delete_all_qr_codes w = (Ok ok, w1)
    ∧ env w1 = env w ∧ calls w1 = S (calls w)
    ∧ trace w1
      = trace w ++ Sqlite DeleteAll
          :: (if ok then [] else [store_error (lit "Error deleting QRs: ")])
    ∧ if ok then
        stored w1 = [] ∧ sequence w1 = sequence w
        ∧ is_Some (db w) ∧ is_Some (db w1) ∧ storage_down w = false
      else db w1 = db w.
Proof.
  unfold delete_all_qr_codes, try_except, bind, execute, ret, raise, emit,
    storage_down, stored, sequence, store_error.
  destruct (storage_fails _ _); simpl.
  { eexists false, _. split_and!; try done. simpl. by rewrite <- app_assoc. }
  destruct (db w) as [t|]; simpl.
  2:{ eexists false, _. split_and!; try done. simpl. by rewrite <- app_assoc. }
  eexists true, _. split_and!; try done; eauto.
Qed.

Lemma get_all_qr_codes_spec w :
  ∃ rs w1,
    get_all_qr_codes w = (Ok rs, w1)
    ∧ env w1 = env w ∧ calls w1 = S (calls w) ∧ db w1 = db w
    ∧ (rs = stored w ∧ trace w1 = trace w ++ [Sqlite SelectAll]
       ∧ is_Some (db w) ∧ storage_down w = false
       ∨ rs = []
         ∧ trace w1 = trace w ++ [Sqlite SelectAll;
                                  store_error (lit "Error fetching QRs: ")]
         ∧ (db w = None ∨ storage_down w = true)).
Proof.
  destruct (storage_down w) eqn:Hs.
  - rewrite get_all_qr_codes_down by done.
    eexists _, _. split_and!; try done. right. auto.
  - rewrite get_all_qr_codes_up by done.
    eexists _, _. split_and!; try done. simpl. unfold stored.
    destruct (db w); [left | right]; split_and!; eauto.
Qed.

Lemma initialize_database_spec w :
  ∃ w1,
    (initialize_database w = (Ok tt, w1)
     ∧ trace w1 = trace w ++ [Sqlite CreateTable]
     ∧ is_Some (db w1) ∧ storage_down w = false
     ∧ (is_Some (db w) → db w1 = db w)
     ∨ initialize_database w = (Raise Sqlite3Error, w1)
       ∧ trace w1 = trace w ++ [Sqlite CreateTable;
            store_error (lit "Database initialization error: ")]
       ∧ db w1 = db w ∧ storage_down w = true)
    ∧ env w1 = env w ∧ calls w1 = S (calls w)
    ∧ stored w1 = stored w ∧ sequence w1 = sequence w.
Proof.
  unfold initialize_database, try_except, bind, execute, ret, raise, emit,
    storage_down, stored, sequence, store_error.
  destruct (storage_fails _ _); simpl.
  { eexists. split; [right; split_and!; try done|done].
    simpl. by rewrite <- app_assoc. }
  destruct (db w) as [t|]; simpl.
  - eexists. split; [left; split_and!; [done | done | by eauto | done | done] | done].
  - eexists. split; [left; split_and!;
                       [done | done | by eauto | done | by intros [? ?]] | done].
Qed.


(** X2. No operation of the store rewrites a record. One call leaves
    the rows as they are, or appends one row built from the arguments
    of [create_qr_code] (with an identifier above every row present and
    above the counter), or, for [delete_all_qr_codes] only, removes them
    all; and the AUTOINCREMENT counter never goes down. *)
Theorem store_call_appends_or_clears (c : db_call) (w : World) :
  let w' := run_call c w in
  (stored w' = stored w
   ∨ (∃ r, stored w' = stored w ++ [r]
           ∧ c = CallCreate (contenido r) (descripcion r) (personalizacion r)
           ∧ Forall (λ r', (id r' < id r)%Z) (stored w)
           ∧ (sequence w < id r)%Z)
   ∨ (stored w' = [] ∧ c = CallDeleteAll))
  ∧ (sequence w ≤ sequence w')%Z.
Proof.
  destruct c as [|c d p| |]; simpl.
  - destruct (initialize_database_spec w)
      as (w1 & [(-> & _)|(-> & _)] & _ & _ & Hst & Hseq); simpl;
      split; auto; lia.
  - destruct (create_qr_code_spec c d p w) as (ok & w1 & -> & _ & _ & _ & Hok).
    simpl. destruct ok.
    + destruct Hok as (r & Hst & <- & <- & <- & _ & Hid & Hlt & Hall & _).
      split; [|lia]. right. left. exists r. by split_and!.
    + unfold stored, sequence. rewrite Hok. split; auto; lia.
  - destruct (get_all_qr_codes_spec w) as (rs & w1 & -> & _ & _ & Hdb & _).
    simpl. unfold stored, sequence. rewrite Hdb. split; auto; lia.
  - destruct (delete_all_qr_codes_spec w) as (ok & w1 & -> & _ & _ & _ & Hok).
    simpl. destruct ok.
    + destruct Hok as (Hst & Hseq & _). split; [auto | lia].
    + unfold stored, sequence. rewrite Hok. split; auto; lia.
Qed.

(** X3. Every record in the store was put there by a create call:
    after any history of calls, a stored record either was stored before
    the history or carries exactly the content, description and
    personalization of a [create_qr_code] call of the history. *)
Theorem stored_records_come_from_creates
    (history : list db_call) (w : World) (r : qr_row) :
  r ∈ stored (run_calls history w) →
  r ∈ stored w
  ∨ CallCreate (contenido r) (descripcion r) (personalizacion r) ∈ history.
Proof.
  revert w. induction history as [|c h IH]; intros w; simpl; [auto|].
  intros [Hin|Hin]%IH; [|right; by right].
  destruct c as [|c d p| |]; simpl in Hin.
  - destruct (initialize_database_spec w)
      as (w1 & [(Hrun & _)|(Hrun & _)] & _ & _ & Hst & _);
      rewrite Hrun in Hin; simpl in Hin; rewrite Hst in Hin; auto.
  - destruct (create_qr_code_spec c d p w) as (ok & w1 & Hrun & _ & _ & _ & Hok).
    rewrite Hrun in Hin. simpl in Hin. destruct ok.
    + destruct Hok as (r' & Hst & <- & <- & <- & _).
      rewrite Hst in Hin. apply elem_of_app in Hin as [?| ->%list_elem_of_singleton];
        [auto | right; left].
    + unfold stored in *. rewrite Hok in Hin. auto.
  - destruct (get_all_qr_codes_spec w) as (rs & w1 & Hrun & _ & _ & Hdb & _).
    rewrite Hrun in Hin. simpl in Hin. unfold stored in *. rewrite Hdb in Hin. auto.
  - destruct (delete_all_qr_codes_spec w) as (ok & w1 & Hrun & _ & _ & _ & Hok).
    rewrite Hrun in Hin. simpl in Hin. destruct ok.
    + destruct Hok as (Hst & _). rewrite Hst in Hin. by apply elem_of_nil in Hin.
    + unfold stored in *. rewrite Hok in Hin. auto.
Qed.

(** X4. [initialize_database] is safe to run on every start: when the
    storage works it ends normally with the table in place, an existing
    table keeps its rows and its counter, and running it again changes
    nothing in the file. *)
Theorem initialize_database_idempotent (w : World) :
  storage_down w = false →
  ∃ w1,
    initialize_database w = (Ok tt, w1)
    ∧ is_Some (db w1)
    ∧ stored w1 = stored w ∧ sequence w1 = sequence w
    ∧ (is_Some (db w) → db w1 = db w)
    ∧ db (snd (initialize_database w1)) = db w1.
Proof.
  intros Hup.
  destruct (initialize_database_spec w)
    as (w1 & [(Hrun & _ & Hsome & _ & Hkeep)|(_ & _ & _ & Hdown)] & _ & _ & Hst & Hseq);
    [|congruence].
  exists w1. split_and!; try done.
  destruct (initialize_database_spec w1)
    as (w2 & [(-> & _ & _ & _ & Hkeep2)|(-> & _ & Hdb & _)] & _);
    simpl; auto.
Qed.

(** X5. Before the table exists (a database file on which
    [initialize_database] never succeeded), no operation creates it
    implicitly: create answers [False], list answers the empty list and
    delete answers [False], even with the storage working, and the file
    stays without a table. *)
Theorem store_without_table (w : World) :
  db w = None →
  (∀ c d p, fst (create_qr_code c d p w) = Ok false
            ∧ db (snd (create_qr_code c d p w)) = None)
  ∧ fst (get_all_qr_codes w) = Ok []
  ∧ db (snd (get_all_qr_codes w)) = None
  ∧ fst (delete_all_qr_codes w) = Ok false
  ∧ db (snd (delete_all_qr_codes w)) = None.
Proof.
  intros Hno. split_and!.
  - intros c d p.
    destruct (create_qr_code_spec c d p w) as (ok & w1 & -> & _ & _ & _ & Hok).
    destruct ok; simpl.
    + destruct Hok as (r & _ & _ & _ & _ & _ & _ & _ & _ & [? ?] & _). congruence.
    + split; congruence.
  - destruct (get_all_qr_codes_spec w)
      as (rs & w1 & -> & _ & _ & _ & [(_ & _ & [? ?] & _)|(-> & _)]);
      [congruence | done].
  - destruct (get_all_qr_codes_spec w) as (rs & w1 & -> & _ & _ & Hdb & _).
    simpl. congruence.
  - destruct (delete_all_qr_codes_spec w) as (ok & w1 & -> & _ & _ & _ & Hok).
    destruct ok; [|done]. destruct Hok as (_ & _ & [? ?] & _). congruence.
  - destruct (delete_all_qr_codes_spec w) as (ok & w1 & -> & _ & _ & _ & Hok).
    destruct ok; simpl; [|congruence].
    destruct Hok as (_ & _ & [? ?] & _). congruence.
Qed.
(** ** Trimming *)

Lemma lstrip_nil s : lstrip s = [] ↔ blank s.
Proof.
  unfold blank. induction s as [|c s IH]; simpl; [split; [constructor | done]|].
  destruct (isspace c) eqn:Hc.
  - rewrite IH. split; [by constructor | by intros [_ ?]%Forall_cons].
  - split; [done | intros [? _]%Forall_cons; congruence].
Qed.

Lemma lstrip_head s c t : lstrip s = c :: t → isspace c = false.
Proof.
  induction s as [|c' s IH]; simpl; [done|].
  destruct (isspace c') eqn:Hc; [exact IH|]. by intros [= -> _].
Qed.

Lemma lstrip_suffix s : ∃ k, s = k ++ lstrip s.
Proof.
  induction s as [|c s [k IH]]; simpl; [by exists []|].
  destruct (isspace c); [|by exists []].
  exists (c :: k). simpl. by rewrite <- IH.
Qed.

Lemma lstrip_fixed s : (∀ c t, s = c :: t → isspace c = false) → lstrip s = s.
Proof. destruct s as [|c s]; simpl; [done|]. intros H. by rewrite (H c s eq_refl). Qed.

Lemma rstrip_prefix s : ∃ k, s = rstrip s ++ k.
Proof.
  unfold rstrip. destruct (lstrip_suffix (rev s)) as [k Hk]. exists (rev k).
  rewrite <- rev_app_distr, <- Hk. by rewrite rev_involutive.
Qed.

Lemma rstrip_idemp s : rstrip (rstrip s) = rstrip s.
Proof.
  unfold rstrip. rewrite rev_involutive. f_equal. apply lstrip_fixed.
  intros c t H. by eapply lstrip_head.
Qed.

Lemma lstrip_strip s : lstrip (strip s) = strip s.
Proof.
  unfold strip. apply lstrip_fixed. intros c t H.
  destruct (rstrip_prefix (lstrip s)) as [k Hk]. rewrite H in Hk.
  by eapply lstrip_head.
Qed.

(** Trimming twice is trimming once. *)
Lemma strip_idemp s : strip (strip s) = strip s.
Proof. unfold strip at 1. rewrite lstrip_strip. unfold strip. apply rstrip_idemp. Qed.

(** Trimming leaves nothing exactly of a blank text. *)
Lemma strip_nil s : strip s = [] ↔ blank s.
Proof.
  unfold strip, rstrip. split.
  - intros H. apply (f_equal (@rev N)) in H. rewrite rev_involutive in H.
    simpl in H. apply lstrip_nil, Forall_rev in H. rewrite rev_involutive in H.
    apply lstrip_nil. destruct (lstrip s) as [|c t] eqn:Hs; [done|].
    apply lstrip_head in Hs. apply Forall_cons in H as [? _]. congruence.
  - intros H. apply lstrip_nil in H. by rewrite H.
Qed.

Lemma is_empty_strips a b :
  is_empty (strip a) || is_empty (strip b) = true ↔ blank a ∨ blank b.
Proof. by rewrite orb_true_iff, !is_empty_nil, !strip_nil. Qed.

(** ** QRGenerator.create_qr_content, further *)

(** X6. The share link is a well-formed query: whenever
    [create_qr_content] returns, its payload holds only unreserved
    characters, ['/'], ['%'] and upper-case hex digits, so the whole link
    is ASCII without any whitespace, and no ['&'], ['#'], ['='] or ['+']
    of a field can end or alter the [text] parameter. *)
Theorem share_link_is_url_safe code description personalization content :
  create_qr_content code description personalization = Ok content →
  ∃ payload,
    content
    = join [LF] (four_lines code description personalization)
      ++ [LF] ++ lit "Compartir por WhatsApp: "
      ++ lit "https://wa.me/?text=" ++ payload
    ∧ Forall (λ c, is_quoted_char c = true) payload
    ∧ Forall (λ c, c < 128 ∧ isspace c = false)
        (lit "https://wa.me/?text=" ++ payload).
Proof.
  unfold create_qr_content. rewrite create_qr_content_text.
  destruct (quote _) as [q|] eqn:Hq; [|done]. intros [= <-].
  exists q. split; [done|].
  assert (Forall (λ c, is_quoted_char c = true) q) as Hsafe.
  { unfold quote in Hq. destruct (utf8_encode _) as [bs|] eqn:Hbs; [|done].
    injection Hq as <-. by eapply quote_from_bytes_chars, utf8_encode_octets. }
  split; [done|]. apply Forall_app. split.
  - vm_compute. repeat constructor.
  - eapply Forall_impl; [exact Hsafe|]. intros c Hc. simpl.
    revert Hc. unfold is_quoted_char, is_safe, PERCENT, isspace.
    split_tests; simpl; (done || (intros; split; (lia || reflexivity))).
Qed.

(** X7. [create_qr_content] fails on one kind of input only: it
    returns for exactly the triples of encodable texts, and what it
    raises otherwise is [UnicodeEncodeError]. *)
Theorem create_qr_content_defined code description personalization :
  (valid_text code ∧ valid_text description ∧ valid_text personalization
   ↔ ∃ content, create_qr_content code description personalization = Ok content)
  ∧ ∀ e, create_qr_content code description personalization = Raise e →
         e = UnicodeEncodeError
           ∧ ¬ (valid_text code ∧ valid_text description
                ∧ valid_text personalization).
Proof.
  assert (is_Some (quote (join [LF] (four_lines code description personalization)))
          ↔ valid_text code ∧ valid_text description ∧ valid_text personalization)
    as Hq.
  { rewrite <- quote_valid, <- create_qr_content_text, !valid_text_app.
    split; [tauto|]. intros (? & ? & ?).
    repeat split; try done; by apply valid_text_check. }
  unfold create_qr_content. rewrite create_qr_content_text.
  destruct (quote _) as [q|]; split.
  - split; [eauto | intros _; apply Hq; eauto].
  - done.
  - split; [|by intros [? ?]]. intros [? [=]]%Hq.
  - intros e [= <-]. split; [done|]. by intros [? [=]]%Hq.
Qed.

(** ** QRApp.generate_and_save_qr, further *)

(** The five ways a manual entry ends. *)
Lemma generate_and_save_qr_run code_entry description_entry personalization_entry w :
  let code := strip code_entry in
  let description := strip description_entry in
  let personalization := strip personalization_entry in
  ∃ w' evs extra,
    generate_and_save_qr code_entry description_entry personalization_entry w
    = (Ok tt, w')
    ∧ env w' = env w
    ∧ trace w' = trace w ++ evs
    ∧ stored w' = stored w ++ extra
    ∧ (((blank code_entry ∨ blank description_entry)
        ∧ evs = [entry_rejected] ∧ extra = [] ∧ db w' = db w ∧ calls w' = calls w)
       ∨ (¬ blank code_entry ∧ ¬ blank description_entry
          ∧ ((∃ e, create_qr_content code description personalization = Raise e
                   ∧ evs = [Logging ERROR (lit "Error generating QR: ") (Some e);
                            MessageBox showerror (lit "Error")
                              (lit "Error al generar QR: ") (Some e)]
                   ∧ extra = [] ∧ db w' = db w)
             ∨ ∃ content,
                 create_qr_content code description personalization = Ok content
                 ∧ ((fst (create_qr_code content description personalization w)
                     = Ok false
                     ∧ evs = [Sqlite (Insert content description personalization);
                              store_error (lit "Error creating QR in DB: ");
                              entry_not_saved]
                     ∧ extra = [] ∧ db w' = db w)
                    ∨ (fst (create_qr_code content description personalization w)
                       = Ok true
                       ∧ (∃ r, extra = [r] ∧ contenido r = content
                               ∧ descripcion r = description
                               ∧ personalizacion r = personalization
                               ∧ fecha_creacion r = now (env w) (calls w))
                       ∧ evs
                         = Sqlite (Insert content description personalization)
                           :: QrMake content QR_IMAGE_SIZE
                           :: (if qr_fits (env w) content
                               then [card content code description;
                                     entry_saved; ClearEntries]
                               else [render_error; entry_not_rendered])))))).
Proof.
  intros code description personalization.
  subst code description personalization. unfold generate_and_save_qr.
  set (code := strip code_entry). set (description := strip description_entry).
  set (personalization := strip personalization_entry).
  destruct (is_empty code || is_empty description) eqn:Hblank.
  { apply is_empty_strips in Hblank.
    eexists _, _, []. split_and!; [done | done | done | by rewrite app_nil_r |].
    left. by split_and!. }
  assert (¬ blank code_entry ∧ ¬ blank description_entry) as [Hc Hd].
  { apply not_true_iff_false in Hblank. unfold code, description in Hblank.
    rewrite is_empty_strips in Hblank. tauto. }
  unfold try_except, bind, liftR.
  destruct (create_qr_content code description personalization) as [content|e]
    eqn:Hcontent.
  2:{ eexists _, _, []. unfold emit. simpl.
      split_and!; [done | done | | by rewrite app_nil_r |].
      - simpl. by rewrite <- app_assoc.
      - right. split_and!; [done..|]. left. exists e. by split_and!. }
  destruct (create_qr_code_spec content description personalization w)
    as (ok & w1 & Hrun & Henv & Hcalls & Htr & Hok).
  rewrite Hrun. cbn [fst]. destruct ok.
  - destruct Hok as (r & Hst & Hr1 & Hr2 & Hr3 & Hr4 & _).
    unfold generate_qr_image, bind, emit, ret. cbn [env trace fst snd].
    rewrite Henv. unfold show_qr_image, messagebox, clear_entries, emit.
    destruct (qr_fits (env w) content) eqn:Hfit; cbn [env trace db calls fst snd].
    + eexists _, _, [r]. split_and!; [done | done | | done |].
      * cbn [trace]. rewrite Htr, <- !app_assoc. reflexivity.
      * right. split_and!; [done..|]. right. exists content. split; [done|].
        right. split_and!; [by rewrite Hrun | by exists r | by rewrite Hfit].
    + eexists _, _, [r]. split_and!; [done | done | | done |].
      * cbn [trace]. rewrite Htr, <- !app_assoc. reflexivity.
      * right. split_and!; [done..|]. right. exists content. split; [done|].
        right. split_and!; [by rewrite Hrun | by exists r | by rewrite Hfit].
  - unfold messagebox, emit. cbn [env trace db calls fst snd].
    eexists _, _, []. split_and!; [done | done | | |].
    + cbn [trace]. rewrite Htr, <- !app_assoc. reflexivity.
    + unfold stored. cbn [db]. by rewrite Hok, app_nil_r.
    + right. split_and!; [done..|]. right. exists content. split; [done|].
      left. split_and!; [by rewrite Hrun | done..].
Qed.

Ltac unfold_effects :=
  unfold entry_rejected, entry_saved, entry_not_rendered, entry_not_saved,
    render_error, store_error, card in *.

(** X8. Manual entry always ends with an answer. Whatever the three
    entries hold and whatever fails, [generate_and_save_qr] returns
    normally after exactly one dialog; it runs at most one statement on
    the database, appends at most one record and touches no record
    already stored; and it clears the entries exactly when it has put up
    the card of the new record, which happens only if the record was
    stored. *)
Theorem manual_entry_always_answers
    (code_entry description_entry personalization_entry : pystr) (w : World) :
  ∃ w' evs extra,
    generate_and_save_qr code_entry description_entry personalization_entry w
    = (Ok tt, w')
    ∧ env w' = env w
    ∧ trace w' = trace w ++ evs
    ∧ stored w' = stored w ++ extra
    ∧ length (List.filter is_dialog evs) = 1%nat
    ∧ (length (List.filter is_sqlite evs) ≤ 1)%nat
    ∧ (length extra ≤ 1)%nat
    ∧ length (List.filter is_entries_cleared evs) = length (cards evs)
    ∧ (length (cards evs) ≤ length extra)%nat.
Proof.
  destruct (generate_and_save_qr_run code_entry description_entry
              personalization_entry w)
    as (w' & evs & extra & Hrun & Henv & Htr & Hst & Hcases).
  exists w', evs, extra. split_and!; [done..| | | | |];
    destruct Hcases as [(_ & -> & -> & _)
      |(_ & _ & [(e & _ & -> & -> & _)
               |(content & _ & [(_ & -> & -> & _)|(_ & (r & -> & _) & ->)])])];
    unfold_effects; unfold cards; try destruct (qr_fits _ _); simpl; lia.
Qed.

(** X9. What manual entry does once the two required entries are
    filled in and the content is formatted: the trimmed description and
    personalization are what is stored, beside the content and the time
    of the call. If the insert fails, nothing is stored, nothing is
    rendered and the "not saved" dialog is shown. If the insert succeeds
    and the rendering succeeds, the card "code - description" is put up,
    the success dialog is shown and the entries are cleared. If the
    insert succeeds and the rendering fails, the record stays in the
    store although the dialog reports an error, no card is put up and
    the entries keep their text. *)
Theorem manual_entry_outcomes
    (code_entry description_entry personalization_entry content : pystr)
    (w : World) :
  let code := strip code_entry in
  let description := strip description_entry in
  let personalization := strip personalization_entry in
  code ≠ [] → description ≠ [] →
  create_qr_content code description personalization = Ok content →
  ∃ w',
    generate_and_save_qr code_entry description_entry personalization_entry w
    = (Ok tt, w')
    ∧ match fst (create_qr_code content description personalization w) with
      | Ok true =>
          (∃ r, stored w' = stored w ++ [r]
                ∧ contenido r = content ∧ descripcion r = description
                ∧ personalizacion r = personalization
                ∧ fecha_creacion r = now (env w) (calls w))
          ∧ trace w'
            = trace w
              ++ Sqlite (Insert content description personalization)
                 :: QrMake content QR_IMAGE_SIZE
                 :: (if qr_fits (env w) content
                     then [card content code description;
                           entry_saved; ClearEntries]
                     else [render_error; entry_not_rendered])
      | _ =>
          db w' = db w
          ∧ trace w'
            = trace w
              ++ [Sqlite (Insert content description personalization);
                  store_error (lit "Error creating QR in DB: ");
                  entry_not_saved]
      end.
Proof.
  intros code description personalization Hcode Hdesc Hcontent.
  destruct (generate_and_save_qr_run code_entry description_entry
              personalization_entry w)
    as (w' & evs & extra & Hrun & Henv & Htr & Hst & Hcases).
  fold code description personalization in Hcases.
  exists w'. split; [done|].
  destruct Hcases as [(Hb%is_empty_strips & _)
    |(_ & _ & [(e & He & _)
             |(content' & Hc' & [(Hfail & -> & -> & Hdb)
                                |(Hok & (r & -> & Hr) & ->)])])].
  - apply orb_true_iff in Hb as [Hb%is_empty_nil|Hb%is_empty_nil];
      [destruct (Hcode Hb) | destruct (Hdesc Hb)].
  - congruence.
  - assert (content' = content) as -> by congruence. by rewrite Hfail.
  - assert (content' = content) as -> by congruence. rewrite Hok.
    split; [by exists r | done].
Qed.

(** X10. The validation of manual entry rejects blank entries and
    nothing else: [generate_and_save_qr] ends with the "enter a code and
    a description" dialog as its only effect exactly when the code entry
    or the description entry holds nothing but whitespace. The
    personalization entry may be blank. *)
Theorem manual_entry_rejects_blank
    (code_entry description_entry personalization_entry : pystr) (w : World) :
  blank code_entry ∨ blank description_entry
  ↔ generate_and_save_qr code_entry description_entry personalization_entry w
    = (Ok tt, logged w [entry_rejected]).
Proof.
  split.
  - intros Hb%is_empty_strips. unfold generate_and_save_qr. by rewrite Hb.
  - intros Heq.
    destruct (generate_and_save_qr_run code_entry description_entry
                personalization_entry w)
      as (w' & evs & extra & Hrun & _ & Htr & _ & Hcases).
    rewrite Heq in Hrun. injection Hrun as <-. simpl in Htr.
    apply app_inv_head in Htr. subst evs.
    destruct Hcases as [(? & _)
      |(_ & _ & [(e & _ & He & _)
               |(content & _ & [(_ & He & _)|(_ & _ & He)])])]; [done|..];
      unfold_effects; try destruct (qr_fits _ _); discriminate.
Qed.

(** ** QRApp.importar_datos, further *)

Lemma well_formed_stripped code_cell description_cell personalization_cell
    content rec :
  strip code_cell ≠ [] → strip description_cell ≠ [] →
  create_qr_content (strip code_cell) (strip description_cell)
    (strip personalization_cell) = Ok content →
  contenido rec = content → descripcion rec = strip description_cell →
  personalizacion rec = strip personalization_cell →
  well_formed rec.
Proof.
  intros Hc Hd Hcontent Hr1 Hr2 Hr3. unfold well_formed.
  rewrite Hr1, Hr2, Hr3, !strip_idemp. split_and!; try done.
  exists (strip code_cell). by rewrite strip_idemp.
Qed.

Section ImportRun.
Variables codigo_col descripcion_col personalizacion_col : pystr.
Variable total_rows : Z.

Local Abbreviation run_row :=
  (import_row codigo_col descripcion_col personalizacion_col total_rows).
Local Abbreviation run_rows :=
  (import_rows codigo_col descripcion_col personalizacion_col total_rows).
Local Abbreviation skips := (row_skipped codigo_col descripcion_col).

(** One iteration, whatever the row and whatever fails. *)
Lemma import_row_run index r c w :
  ∃ c' w' evs extra,
    run_row index r c w = (Ok c', w')
    ∧ env w' = env w
    ∧ trace w' = trace w ++ evs
    ∧ stored w' = stored w ++ extra
    ∧ List.filter is_dialog evs = []
    ∧ List.filter is_show_progress evs = []
    ∧ List.filter is_progress evs
      = (if skips r then []
         else [UpdateProgress (Z.of_nat index + 1) total_rows])
    ∧ Forall well_formed extra
    ∧ Forall (backed_by extra) (cards evs)
    ∧ (c' = add_success c ∧ length extra = 1%nat ∧ length (cards evs) = 1%nat
           ∧ skips r = false
       ∨ c' = add_error c ∧ (length extra ≤ 1)%nat ∧ cards evs = []
           ∧ skips r = false
       ∨ c' = add_skipped c ∧ extra = [] ∧ cards evs = [] ∧ skips r = true).
Proof.
  unfold import_row, try_except, import_row_try, bind, getitem, liftR,
    row_skipped.
  destruct (r !! codigo_col) as [code|] eqn:Hcode; cbn [fst snd].
  2:{ unfold emit, ret, update_progress. cbn [fst snd env db calls trace].
      eexists _, _, _, []. split_and!; [reflexivity | done | | | | | | | |].
      - cbn [trace]. rewrite <- !app_assoc. reflexivity.
      - by rewrite app_nil_r.
      - done.
      - done.
      - done.
      - constructor.
      - constructor.
      - right. left. split_and!; [done | simpl; lia | done | done]. }
  destruct (r !! descripcion_col) as [desc|] eqn:Hdesc; cbn [fst snd].
  2:{ unfold emit, ret, update_progress. cbn [fst snd env db calls trace].
      eexists _, _, _, []. split_and!; [reflexivity | done | | | | | | | |].
      - cbn [trace]. rewrite <- !app_assoc. reflexivity.
      - by rewrite app_nil_r.
      - done.
      - done.
      - done.
      - constructor.
      - constructor.
      - right. left. split_and!; [done | simpl; lia | done | done]. }
  destruct (is_empty (strip code) || is_empty (strip desc)) eqn:Hblank.
  { unfold emit, ret. cbn [fst snd env db calls trace].
    eexists _, _, _, []. split_and!; [reflexivity | done | | | | | | | |].
    - cbn [trace]. reflexivity.
    - by rewrite app_nil_r.
    - done.
    - done.
    - done.
    - constructor.
    - constructor.
    - right. right. by split_and!. }
  apply orb_false_iff in Hblank as [Hc%not_true_iff_false Hd%not_true_iff_false].
  rewrite is_empty_nil in Hc, Hd.
  destruct (create_qr_content _ _ _) as [content|e] eqn:Hcontent; cbn [fst snd].
  2:{ unfold emit, ret, update_progress.
      destruct e; cbn [fst snd env db calls trace];
        (eexists _, _, _, []; split_and!; [reflexivity | done | | | | | | | |];
         [ cbn [trace]; rewrite <- !app_assoc; reflexivity
         | by rewrite app_nil_r | done | done | done | constructor | constructor
         | right; left; split_and!; [done | simpl; lia | done | done] ]). }
  destruct (create_qr_code_spec content (strip desc)
              (strip (default [] (r !! personalizacion_col))) w)
    as (ok & w1 & Hrun & Henv & Hcalls & Htr & Hok).
  rewrite Hrun. cbn [fst snd]. destruct ok.
  - destruct Hok as (rec & Hst & Hr1 & Hr2 & Hr3 & _).
    pose proof (well_formed_stripped code desc _ content rec Hc Hd Hcontent
                  Hr1 Hr2 Hr3) as Hwf.
    unfold generate_qr_image, bind, emit, ret, show_qr_image, update_progress.
    cbn [env trace fst snd]. rewrite Henv.
    destruct (qr_fits (env w) content) eqn:Hfit; cbn [env trace db calls fst snd].
    + eexists _, _, _, [rec].
      split_and!; [reflexivity | done | | done | | | | | |].
      * cbn [trace]. rewrite Htr, <- !app_assoc. reflexivity.
      * done.
      * done.
      * done.
      * by constructor.
      * repeat constructor. exists rec. split; [set_solver | done].
      * left. by split_and!.
    + eexists _, _, _, [rec].
      split_and!; [reflexivity | done | | done | | | | | |].
      * cbn [trace]. rewrite Htr, <- !app_assoc. reflexivity.
      * done.
      * done.
      * done.
      * by constructor.
      * constructor.
      * right. left. split_and!; [done | simpl; lia | done | done].
  - unfold emit, ret, update_progress. cbn [env trace db calls fst snd].
    eexists _, _, _, []. split_and!; [reflexivity | done | | | | | | | |].
    + cbn [trace]. rewrite Htr, <- !app_assoc. reflexivity.
    + unfold stored. cbn [db]. by rewrite Hok, app_nil_r.
    + done.
    + done.
    + done.
    + constructor.
    + constructor.
    + right. left. split_and!; [done | simpl; lia | done | done].
Qed.

Lemma cards_app evs1 evs2 : cards (evs1 ++ evs2) = cards evs1 ++ cards evs2.
Proof. apply omap_app. Qed.

Lemma backed_by_app rs1 rs2 cds :
  Forall (backed_by rs1) cds ∨ Forall (backed_by rs2) cds →
  Forall (backed_by (rs1 ++ rs2)) cds.
Proof.
  intros [H|H]; (eapply Forall_impl; [exact H|]); intros cd (r & Hin & Hr);
    exists r; (split; [set_solver | done]).
Qed.

(** The loop from row [index] on. *)
Lemma import_rows_run df : ∀ index c w,
  ∃ c' w' evs extra,
    run_rows index df c w = (Ok c', w')
    ∧ env w' = env w
    ∧ trace w' = trace w ++ evs
    ∧ stored w' = stored w ++ extra
    ∧ List.filter is_dialog evs = []
    ∧ List.filter is_show_progress evs = []
    ∧ List.filter is_progress evs
      = import_progress codigo_col descripcion_col total_rows index df
    ∧ Forall well_formed extra
    ∧ Forall (backed_by extra) (cards evs)
    ∧ success_count c' = (success_count c + Z.of_nat (length (cards evs)))%Z
    ∧ skipped_count c'
      = (skipped_count c + Z.of_nat (length (List.filter skips df)))%Z
    ∧ (error_count c ≤ error_count c')%Z
    ∧ (success_count c' + error_count c' + skipped_count c'
       = success_count c + error_count c + skipped_count c
         + Z.of_nat (length df))%Z
    ∧ (Z.of_nat (length (cards evs)) ≤ Z.of_nat (length extra)
       ≤ Z.of_nat (length (cards evs)) + (error_count c' - error_count c))%Z.
Proof.
  induction df as [|r df IH]; intros index c w.
  - exists c, w, [], []. cbn [QRApp.import_rows]. unfold ret.
    rewrite !app_nil_r. split_and!; try done; simpl; lia.
  - cbn [QRApp.import_rows]. unfold bind.
    destruct (import_row_run index r c w)
      as (c1 & w1 & evs1 & ex1 & -> & He1 & Ht1 & Hs1 & Hd1 & Hp1 & Hu1
          & Hw1 & Hb1 & Hc1).
    destruct (IH (S index) c1 w1)
      as (c2 & w2 & evs2 & ex2 & -> & He2 & Ht2 & Hs2 & Hd2 & Hp2 & Hu2
          & Hw2 & Hb2 & Hsucc & Hskip & Herr & Hsum & Hlen).
    assert (success_count c1
            = (success_count c + Z.of_nat (length (cards evs1)))%Z
            ∧ skipped_count c1
              = (skipped_count c + if skips r then 1 else 0)%Z
            ∧ (error_count c ≤ error_count c1)%Z
            ∧ (success_count c1 + error_count c1 + skipped_count c1
               = success_count c + error_count c + skipped_count c + 1)%Z
            ∧ (Z.of_nat (length (cards evs1)) ≤ Z.of_nat (length ex1)
               ≤ Z.of_nat (length (cards evs1))
                 + (error_count c1 - error_count c))%Z)
      as (Hsucc1 & Hskip1 & Herr1 & Hsum1 & Hlen1).
    { destruct Hc1 as [(-> & ? & ? & ->)|[(-> & ? & -> & ->)|(-> & -> & -> & ->)]];
        simpl; lia. }
    exists c2, w2, (evs1 ++ evs2), (ex1 ++ ex2).
    rewrite !List.filter_app, cards_app, !length_app, Hd1, Hd2, Hp1, Hp2, Hu1, Hu2.
    cbn [import_progress List.filter].
    split_and!; try done.
    + congruence.
    + by rewrite Ht2, Ht1, app_assoc.
    + by rewrite Hs2, Hs1, app_assoc.
    + apply Forall_app. split; done.
    + apply Forall_app. split; apply backed_by_app; auto.
    + lia.
    + destruct (skips r); simpl in *; lia.
    + lia.
    + simpl. lia.
    + lia.
    + lia.
Qed.

End ImportRun.

Lemma import_progress_length codigo_col descripcion_col total_rows df :
  ∀ index,
    (length (import_progress codigo_col descripcion_col total_rows index df)
     + length (List.filter (row_skipped codigo_col descripcion_col) df)
     = length df)%nat.
Proof.
  induction df as [|r df IH]; intros index; simpl; [done|].
  rewrite length_app. specialize (IH (S index)).
  destruct (row_skipped _ _ r); simpl; lia.
Qed.

Lemma last_bracket {A} (x : A) l y z : last (x :: l ++ [y; z]) = Some z.
Proof.
  rewrite app_comm_cons. change [y; z] with ([y] ++ [z]).
  rewrite app_assoc. apply last_snoc.
Qed.

(** The whole import, whatever the sheet and whatever fails. *)
Lemma importar_datos_run df codigo_col descripcion_col personalizacion_col w :
  ∃ c w' evs extra,
    importar_datos df codigo_col descripcion_col personalizacion_col w
    = (Ok tt, w')
    ∧ env w' = env w
    ∧ trace w'
      = trace w ++ ShowProgress true
                   :: evs ++ [ShowProgress false; import_report c]
    ∧ stored w' = stored w ++ extra
    ∧ List.filter is_dialog evs = []
    ∧ List.filter is_show_progress evs = []
    ∧ List.filter is_progress evs
      = import_progress codigo_col descripcion_col
          (Z.of_nat (length df)) 0 df
    ∧ Forall well_formed extra
    ∧ Forall (backed_by extra) (cards evs)
    ∧ success_count c = Z.of_nat (length (cards evs))
    ∧ skipped_count c
      = Z.of_nat (length (List.filter
                            (row_skipped codigo_col descripcion_col) df))
    ∧ (0 ≤ error_count c)%Z
    ∧ (success_count c + error_count c + skipped_count c
       = Z.of_nat (length df))%Z
    ∧ (success_count c ≤ Z.of_nat (length extra)
       ≤ success_count c + error_count c)%Z.
Proof.
  unfold importar_datos, try_except, bind, show_progress, messagebox.
  unfold emit at 1. cbn [fst snd].
  match goal with
  | |- context [import_rows ?cc ?dc ?pc ?t ?i ?d ?c0 ?w0] =>
      destruct (import_rows_run cc dc pc t d i c0 w0)
        as (c & w1 & evs & extra & -> & He & Ht & Hs & Hd & Hp & Hu & Hw & Hb
            & Hsucc & Hskip & Herr & Hsum & Hlen)
  end.
  cbn [success_count error_count skipped_count env trace db calls] in *.
  unfold emit. cbn [fst snd env trace db calls].
  eexists c, _, evs, extra. split; [reflexivity|].
  split_and!; try done; try lia.
  cbn [trace]. rewrite Ht. unfold import_report.
  by rewrite <- !app_assoc.
Qed.




(** ** QRApp.export_pdf, further *)

Lemma export_record_run total_qrs i r pdf w :
  ∃ pdf' w' evs,
    export_record total_qrs i r pdf w = (Ok pdf', w')
    ∧ env w' = env w ∧ db w' = db w ∧ calls w' = calls w
    ∧ trace w' = trace w ++ evs
    ∧ List.filter is_dialog evs = []
    ∧ List.filter is_show_progress evs = []
    ∧ List.filter is_pdf_output evs = []
    ∧ List.filter is_sqlite evs = []
    ∧ cards evs = []
    ∧ List.filter is_progress evs
      = (if qr_fits (env w) (contenido r)
         then [UpdateProgress (Z.of_nat i + 1) total_qrs] else []).
Proof.
  unfold export_record, QRGenerator.generate_qr_image, bind, emit, ret,
    update_progress.
  cbn [fst snd env db calls trace].
  destruct (qr_fits (env w) (contenido r)); cbn [fst snd env db calls trace];
    [destruct (pdf_image_raises (env w) i); cbn [fst snd env db calls trace];
     [|destruct (pdf_multi_cell_raises (env w) i);
       cbn [fst snd env db calls trace]] |];
    (eexists _, _, _; split; [reflexivity|];
     split_and!;
       [done | done | done
       | cbn [trace]; rewrite <- ?app_assoc; reflexivity | done..]).
Qed.

Lemma export_records_run total_qrs qr_data : ∀ i pdf w,
  ∃ pdf' w' evs,
    export_records total_qrs i qr_data pdf w = (Ok pdf', w')
    ∧ env w' = env w ∧ db w' = db w ∧ calls w' = calls w
    ∧ trace w' = trace w ++ evs
    ∧ List.filter is_dialog evs = []
    ∧ List.filter is_show_progress evs = []
    ∧ List.filter is_pdf_output evs = []
    ∧ List.filter is_sqlite evs = []
    ∧ cards evs = []
    ∧ List.filter is_progress evs
      = export_progress (env w) total_qrs i qr_data.
Proof.
  induction qr_data as [|r rest IH]; intros i pdf w.
  - exists pdf, w, []. cbn [QRApp.export_records]. unfold ret.
    rewrite app_nil_r. by split_and!.
  - cbn [QRApp.export_records]. unfold bind.
    destruct (export_record_run total_qrs i r pdf w)
      as (pdf1 & w1 & evs1 & -> & He1 & Hd1 & Hc1 & Ht1 & Hx1 & Hy1 & Hz1
          & Hq1 & Hk1 & Hu1).
    destruct (IH (S i) pdf1 w1)
      as (pdf2 & w2 & evs2 & -> & He2 & Hd2 & Hc2 & Ht2 & Hx2 & Hy2 & Hz2
          & Hq2 & Hk2 & Hu2).
    exists pdf2, w2, (evs1 ++ evs2).
    rewrite !List.filter_app, cards_app, Hx1, Hx2, Hy1, Hy2, Hz1, Hz2, Hq1, Hq2,
      Hk1, Hk2, Hu1, Hu2, He1.
    cbn [export_progress].
    split_and!; try done; try congruence.
    by rewrite Ht2, Ht1, app_assoc.
Qed.

Ltac exists_world mid pdf :=
  eexists _, mid, pdf; split; [reflexivity|];
  cbn [env db calls trace]; split_and!; try done; try congruence.

(** An export that has records and a file to write. *)
Lemma export_pdf_exporting file_path w :
  storage_down w = false → stored w ≠ [] → file_path ≠ [] →
  ∃ w' mid pdf,
    export_pdf file_path w = (Ok tt, w')
    ∧ env w' = env w ∧ db w' = db w ∧ calls w' = S (calls w)
    ∧ trace w'
      = trace w ++ Sqlite SelectAll :: ShowProgress true
                   :: mid ++ PdfOutput file_path pdf
                   :: export_end (env w) file_path
    ∧ List.filter is_dialog mid = []
    ∧ List.filter is_show_progress mid = []
    ∧ List.filter is_pdf_output mid = []
    ∧ List.filter is_sqlite mid = []
    ∧ cards mid = []
    ∧ List.filter is_progress mid
      = export_progress (env w) (Z.of_nat (length (stored w))) 0 (stored w)
    ∧ pages pdf = ((length (stored w) + 2) / 3)%nat
    ∧ body pdf = layout (env w) 0 (stored w).
Proof.
  intros Hup Hne Hpath.
  unfold export_pdf, try_except, bind.
  rewrite get_all_qr_codes_up by done.
  assert (is_empty_list (stored w) = false) as -> by by destruct (stored w).
  assert (is_empty file_path = false) as -> by by destruct file_path.
  assert (∃ t, db w = Some t) as [t Ht].
  { unfold stored in Hne. destruct (db w); [eauto | done]. }
  rewrite Ht. unfold show_progress, emit at 1. cbn [fst snd env db calls trace].
  match goal with
  | |- context [export_records ?t ?i ?d ?p ?w0] =>
      destruct (export_records_run t d i p w0)
        as (pdf & w1 & mid & Hrun & He & Hd & Hc & Htr & Hx & Hy & Hz & Hq
            & Hk & Hu);
      destruct (export_records_spec t d i p w0 eq_refl)
        as (pdf' & w1' & Hrun' & _ & _ & _ & Hpages & Hbody);
      rewrite Hrun in Hrun'; injection Hrun' as <- <-
  end.
  rewrite Hrun. cbn [env db calls trace] in *.
  unfold pdf_output, messagebox, bind, emit, ret, raise, export_end.
  cbn [fst snd env db calls trace]. rewrite He.
  assert (0 < length (stored w))%nat as HM.
  { destruct (stored w); [done | simpl; lia]. }
  destruct (pages_ceiling _ HM) as [Hceil _].
  assert (pages pdf = ((length (stored w) + 2) / 3)%nat) as Hpg.
  { rewrite Hpages. cbn [Nat.add]. destruct (length (stored w)); [lia | done]. }
  destruct (pdf_output_raises (env w) file_path);
    cbn [fst snd env db calls trace];
    (exists_world mid pdf); rewrite Htr, <- !app_assoc; reflexivity.
Qed.



(** X16. Progress during an export is reported for the records whose
    raster renders, and for those only: the updates issued are, in store
    order, [(i + 1, M)] for each record of index [i] that qrcode can
    encode, also when fpdf then refuses the image or the caption. A
    record that cannot be rendered is logged and gets no update. *)
Theorem export_progress_updates (file_path : pystr) (w : World) :
  storage_down w = false → stored w ≠ [] → file_path ≠ [] →
  ∃ w' evs,
    export_pdf file_path w = (Ok tt, w')
    ∧ trace w' = trace w ++ evs
    ∧ List.filter is_progress evs
      = export_progress (env w) (Z.of_nat (length (stored w))) 0 (stored w)
    ∧ length (List.filter is_progress evs)
      = length (List.filter (λ r, qr_fits (env w) (contenido r)) (stored w)).
Proof.
  intros Hup Hne Hpath.
  destruct (export_pdf_exporting file_path w Hup Hne Hpath)
    as (w' & mid & pdf & Hrun & _ & _ & _ & Htr & _ & _ & _ & _ & _ & Hu & _).
  eexists w', _. split_and!; [exact Hrun | exact Htr | |].
  - cbn [List.filter is_progress]. rewrite List.filter_app, Hu.
    unfold export_end. destruct (pdf_output_raises _ _); simpl;
      by rewrite app_nil_r.
  - cbn [List.filter is_progress]. rewrite List.filter_app, Hu.
    assert (List.filter is_progress
              (PdfOutput file_path pdf :: export_end (env w) file_path) = [])
      as ->.
    { unfold export_end. by destruct (pdf_output_raises _ _). }
    rewrite app_nil_r. clear. generalize (Z.of_nat (length (stored w))) 0%nat.
    induction (stored w) as [|r rs IH]; intros total i; simpl; [done|].
    rewrite length_app, IH. by destruct (qr_fits (env w) (contenido r)).
Qed.

Lemma slot_inj a b : slot a = slot b → a = b.
Proof.
  intros H. pose proof (f_equal fst H) as Hdiv. pose proof (f_equal snd H) as Hmod.
  unfold slot, offset_y in Hdiv, Hmod. cbn [fst snd] in Hdiv, Hmod.
  pose proof (Nat.div_mod_eq a 3) as Ha. pose proof (Nat.div_mod_eq b 3) as Hb.
  rewrite Hdiv in Ha.
  revert Ha Hb Hmod.
  generalize (a mod 3)%nat (b mod 3)%nat (b / 3)%nat. intros ra rb q. lia.
Qed.

Lemma slot_bounds M k :
  (k < M)%nat →
  ((slot k).1 < (M + 2) / 3)%nat
  ∧ (slot k).2 ∈ [10%Z; 100%Z; 190%Z].
Proof.
  intros Hk. unfold slot, offset_y. cbn [fst snd].
  pose proof (Nat.div_mod_eq k 3) as Hk3.
  pose proof (Nat.mod_upper_bound k 3) as Hr.
  pose proof (Nat.div_mod_eq (M + 2) 3) as HM3.
  pose proof (Nat.mod_upper_bound (M + 2) 3) as HMr.
  revert Hk3 Hr HM3 HMr.
  generalize (k mod 3)%nat (k / 3)%nat ((M + 2) mod 3)%nat ((M + 2) / 3)%nat.
  intros r q rM qM Hk3 Hr HM3 HMr.
  split; [lia|].
  assert (r = 0 ∨ r = 1 ∨ r = 2)%nat as [->|[->| ->]] by lia; set_solver.
Qed.

(** The rasters of the loop sit at slots of the records, in order, and
    each caption beside a raster. *)
Lemma slots_layout e qr_data : ∀ i,
  raster_slots (layout e i qr_data) `sublist_of` map slot (List.seq i (length qr_data))
  ∧ caption_slots (layout e i qr_data) `sublist_of` raster_slots (layout e i qr_data).
Proof.
  induction qr_data as [|r rest IH]; intros i; cbn [layout length List.seq map].
  - split; constructor.
  - destruct (IH (S i)) as [IH1 IH2].
    unfold raster_slots, caption_slots in *. rewrite !omap_app.
    unfold placed.
    destruct (qr_fits e (contenido r)); [|split; [by apply sublist_cons | done]].
    destruct (pdf_image_raises e i); [split; [by apply sublist_cons | done]|].
    destruct (pdf_multi_cell_raises e i); cbn [map omap app]; fold (slot i).
    + split; [by apply sublist_skip | by apply sublist_cons].
    + split; by apply sublist_skip.
Qed.


(** ** QRApp.clear_all_qrs and the display *)

Lemma added_app w w' evs : trace w' = trace w ++ evs → added w w' = evs.
Proof. unfold added. intros ->. by rewrite drop_app_length. Qed.

(** X18. "Borrar Todo" clears the store and the display together or
    not at all. When the question is declined nothing happens at all.
    When it is confirmed and the delete succeeds, the store and the
    display are both empty afterwards, the AUTOINCREMENT counter is
    kept, so that no identifier is given twice, and the "Borrado" dialog
    is shown. When the delete fails, the store and the cards on display
    are as before and the error dialog is shown. It never raises. *)
Theorem clear_all_qrs_all_or_nothing
    (confirm : bool) (display : list (image * pystr)) (w : World) :
  ∃ kept w',
    clear_all_qrs confirm display w = (Ok kept, w')
    ∧ env w' = env w
    ∧ (confirm = false ∧ w' = w ∧ kept = display
       ∨ confirm = true ∧ fst (delete_all_qr_codes w) = Ok true
         ∧ stored w' = [] ∧ kept = [] ∧ sequence w' = sequence w
         ∧ trace w' = trace w ++ [Sqlite DeleteAll; all_cleared]
       ∨ confirm = true ∧ fst (delete_all_qr_codes w) = Ok false
         ∧ db w' = db w ∧ kept = display
         ∧ trace w' = trace w ++ [Sqlite DeleteAll;
                                  store_error (lit "Error deleting QRs: ");
                                  not_cleared]).
Proof.
  unfold clear_all_qrs. destruct confirm.
  2:{ exists display, w. unfold ret. split_and!; auto. }
  unfold bind.
  destruct (delete_all_qr_codes_spec w) as (ok & w1 & Hrun & He & Hc & Htr & Hok).
  rewrite Hrun. unfold messagebox, emit, ret. cbn [fst snd env db calls trace].
  destruct ok.
  - destruct Hok as (Hst & Hseq & _).
    eexists _, _. split; [reflexivity|]. split; [done|]. right. left.
    cbn [trace]. split_and!; try done. by rewrite Htr, <- app_assoc.
  - eexists _, _. split; [reflexivity|]. split; [done|]. right. right.
    cbn [trace db]. split_and!; try done. by rewrite Htr, <- app_assoc.
Qed.

(** One click appends records and cards, or clears both. *)
Lemma handle_step a c :
  env (world (handle a c)) = env (world a)
  ∧ ((∃ extra shown,
        stored (world (handle a c)) = stored (world a) ++ extra
        ∧ qr_display (handle a c) = qr_display a ++ shown
        ∧ Forall well_formed extra
        ∧ Forall (backed_by extra) shown
        ∧ (length shown ≤ length extra)%nat)
     ∨ stored (world (handle a c)) = [] ∧ qr_display (handle a c) = []).
Proof.
  destruct c as [ce de pe|df cc dc pc|confirm]; cbn [handle].
  - destruct (generate_and_save_qr_run ce de pe (world a))
      as (w' & evs & extra & -> & He & Htr & Hst & Hcases).
    cbn [snd world qr_display]. rewrite (added_app _ _ _ Htr).
    split; [done|]. left. exists extra, (cards evs).
    split_and!; [done | done |..];
      destruct Hcases as [(_ & -> & -> & _)
        |(Hc & Hd & [(e & _ & -> & -> & _)
                 |(content & Hcontent
                   & [(_ & -> & -> & _)
                     |(_ & (r & -> & Hr1 & Hr2 & Hr3 & _) & ->)])])];
      unfold_effects; try destruct (qr_fits _ _); cbn [cards omap length];
      try (by constructor); try lia.
    + constructor; [|constructor].
      rewrite <- strip_nil in Hc, Hd.
      by eapply (well_formed_stripped ce de pe).
    + constructor; [|constructor].
      rewrite <- strip_nil in Hc, Hd.
      by eapply (well_formed_stripped ce de pe).
    + repeat constructor. exists r. split; [set_solver | done].
  - unfold procesar_excel.
    destruct (is_empty cc || is_empty dc).
    { unfold messagebox, emit. cbn [snd world qr_display env].
      split; [done|]. left. exists [], [].
      rewrite (added_app _ _ [MessageBox showerror (lit "Error")
        (lit "Debes seleccionar las columnas 'Código' y 'Descripción'.") None])
        by done.
      cbn [cards omap]. rewrite !app_nil_r. split_and!; try done; constructor. }
    destruct (importar_datos_run df cc dc pc (world a))
      as (c & w' & evs & extra & -> & He & Htr & Hst & _ & _ & _ & Hw & Hb
          & Hsucc & _ & _ & _ & Hlen).
    cbn [snd world qr_display]. rewrite (added_app _ _ _ Htr).
    assert (cards (ShowProgress true
                   :: evs ++ [ShowProgress false; import_report c])
            = cards evs) as ->.
    { change (ShowProgress true :: ?l) with ([ShowProgress true] ++ l).
      rewrite !cards_app. simpl. by rewrite app_nil_r. }
    split; [done|]. left. exists extra, (cards evs). split_and!; try done. lia.
  - unfold clear_all_qrs. destruct confirm.
    2:{ unfold ret. cbn [world qr_display]. split; [done|].
        left. exists [], []. rewrite !app_nil_r.
        split_and!; try done; constructor. }
    unfold bind.
    destruct (delete_all_qr_codes_spec (world a))
      as (ok & w1 & Hrun & He & _ & _ & Hok).
    rewrite Hrun. unfold messagebox, emit, ret.
    cbn [fst snd env db calls trace]. destruct ok; cbn [world qr_display env].
    + destruct Hok as (Hst & _). split; [done|]. by right.
    + split; [done|]. left. exists [], []. rewrite !app_nil_r.
      unfold stored. cbn [db]. rewrite Hok.
      split_and!; try done; constructor.
Qed.

(** X19. Every card on display is backed by the store. If the cards
    on display each show the content of a stored record and are no more
    than the records, this still holds after any sequence of clicks on
    "Generar y Guardar QR", "Aceptar" (import) and "Borrar Todo",
    whatever fails meanwhile; it holds at start, when nothing is on
    display. A record may lack its card (a failed rendering, an earlier
    session), a card never lacks its record. *)
Theorem session_cards_are_backed (clicks : list click) (a : App) :
  Forall (backed_by (stored (world a))) (qr_display a) →
  (length (qr_display a) ≤ length (stored (world a)))%nat →
  let a' := session clicks a in
  Forall (backed_by (stored (world a'))) (qr_display a')
  ∧ (length (qr_display a') ≤ length (stored (world a')))%nat.
Proof.
  revert a. induction clicks as [|c clicks IH]; intros a Hb Hlen; [done|].
  cbn [session foldl]. apply IH;
    destruct (handle_step a c)
      as [_ [(extra & shown & -> & -> & _ & Hs & Hl)|[-> ->]]];
    try (by constructor); try done.
  - apply Forall_app. split; apply backed_by_app; auto.
  - rewrite !length_app. lia.
Qed.

(** X20. Every record the application stores is well formed. If the
    stored records have a non-empty, trimmed description, a trimmed
    personalization and as content the text formatted from a non-empty
    trimmed code and these two columns, then so have the records stored
    after any sequence of clicks on "Generar y Guardar QR", "Aceptar"
    (import) and "Borrar Todo"; in particular the caption of a record
    in an exported document agrees with what its QR code encodes. *)
Theorem session_records_are_well_formed (clicks : list click) (a : App) :
  Forall well_formed (stored (world a)) →
  Forall well_formed (stored (world (session clicks a))).
Proof.
  revert a. induction clicks as [|c clicks IH]; intros a Hw; [done|].
  cbn [session foldl]. apply IH.
  destruct (handle_step a c)
    as [_ [(extra & shown & -> & _ & Hx & _)|[-> _]]]; [|constructor].
  apply Forall_app. by split.
Qed.

(** ** main *)

(** X21. A storage failure at start is reported, not lost. [main]
    never raises, whatever the event loop does. When the storage is down
    at start, [initialize_database] logs the failure and raises, [main]
    logs it again and shows it in an error dialog, and the event loop is
    never entered; when the storage works, the event loop starts on a
    database that has the table, with the records it held. *)
Theorem main_reports_startup_failure (mainloop : M unit) (w : World) :
  (∃ w', main mainloop w = (Ok tt, w'))
  ∧ (storage_down w = true →
     main mainloop w
     = (Ok tt,
        {| env := env w; db := db w; calls := S (calls w);
           trace := trace w ++
             [Sqlite CreateTable;
              store_error (lit "Database initialization error: ");
              Logging ERROR (lit "Main application error: ")
                (Some Sqlite3Error);
              MessageBox showerror (lit "Error")
                (lit "Error en la aplicación principal: ")
                (Some Sqlite3Error)] |}))
  ∧ (storage_down w = false →
     ∃ w0, initialize_database w = (Ok tt, w0)
           ∧ is_Some (db w0) ∧ stored w0 = stored w
           ∧ ∀ w1, mainloop w0 = (Ok tt, w1) → main mainloop w = (Ok tt, w1)).
Proof.
  unfold main, try_except, bind, emit.
  destruct (initialize_database_spec w)
    as (w0 & [(Hrun & _ & Hsome & Hup & _)|(Hrun & Htr & Hdb & Hdown)]
        & He & Hc & Hst & _); rewrite Hrun; cbv beta iota.
  - split_and!.
    + destruct (mainloop w0) as [[[]|e] w1]; simpl; eauto.
    + congruence.
    + intros _. exists w0. split_and!; try done. by intros w1 ->.
  - cbn [fst snd env db calls trace]. split_and!.
    + eauto.
    + intros _. rewrite He, Hdb, Hc, Htr. by rewrite <- !app_assoc.
    + congruence.
Qed.

(** ** The further properties at concrete inputs *)

Lemma stored_records_come_from_creates_witness :
  let history := [CallInitialize; CallCreate (lit "c") (lit "d") []] in
  let r := {| id := 1; contenido := lit "c";
              fecha_creacion := now working 1;
              descripcion := lit "d"; personalizacion := [] |} in
  r ∈ stored (run_calls history (fresh working))
  ∧ (r ∈ stored (fresh working)
     ∨ CallCreate (contenido r) (descripcion r) (personalizacion r) ∈ history).
Proof.
  intros history r.
  assert (r ∈ stored (run_calls history (fresh working))) as H.
  { change (r ∈ [r]). apply list_elem_of_here. }
  split; [exact H|].
  exact (stored_records_come_from_creates history (fresh working) r H).
Defined.

Lemma initialize_database_idempotent_witness :
  storage_down (fresh working) = false
  ∧ ∃ w1, initialize_database (fresh working) = (Ok tt, w1)
          ∧ is_Some (db w1)
          ∧ db (snd (initialize_database w1)) = db w1.
Proof.
  assert (storage_down (fresh working) = false) as H by reflexivity.
  split; [exact H|].
  destruct (initialize_database_idempotent (fresh working) H)
    as (w1 & Hrun & Hsome & _ & _ & _ & Hagain).
  exists w1. split_and!; [exact Hrun | exact Hsome | exact Hagain].
Defined.

Lemma store_without_table_witness :
  db (fresh working) = None
  ∧ fst (create_qr_code (lit "c") (lit "d") [] (fresh working)) = Ok false
  ∧ fst (get_all_qr_codes (fresh working)) = Ok []
  ∧ fst (delete_all_qr_codes (fresh working)) = Ok false.
Proof.
  assert (db (fresh working) = None) as H by reflexivity.
  split; [exact H|].
  destruct (store_without_table (fresh working) H)
    as (Hcreate & Hlist & _ & Hdelete & _).
  split_and!; [exact (proj1 (Hcreate _ _ _)) | exact Hlist | exact Hdelete].
Defined.

Lemma share_link_is_url_safe_witness :
  create_qr_content (lit "A1") (lit "Box") [] = Ok content_A1
  ∧ ∃ payload,
      content_A1
      = join [LF] (four_lines (lit "A1") (lit "Box") [])
        ++ [LF] ++ lit "Compartir por WhatsApp: "
        ++ lit "https://wa.me/?text=" ++ payload
      ∧ Forall (λ c, is_quoted_char c = true) payload.
Proof.
  assert (create_qr_content (lit "A1") (lit "Box") [] = Ok content_A1) as H
    by reflexivity.
  split; [exact H|].
  destruct (share_link_is_url_safe _ _ _ _ H) as (payload & Hc & Hq & _).
  exists payload. split; [exact Hc | exact Hq].
Defined.

Lemma manual_entry_outcomes_witness :
  let w := ready render_off in
  strip (lit " A1 ") ≠ [] ∧ strip (lit "Box") ≠ []
  ∧ create_qr_content (strip (lit " A1 ")) (strip (lit "Box")) (strip [])
    = Ok content_A1
  ∧ ∃ w' r,
      generate_and_save_qr (lit " A1 ") (lit "Box") [] w = (Ok tt, w')
      ∧ stored w' = stored w ++ [r]
      ∧ contenido r = content_A1
      ∧ last (trace w') = Some entry_not_rendered.
Proof.
  intros w.
  assert (strip (lit " A1 ") ≠ []) as H1 by (vm_compute; discriminate).
  assert (strip (lit "Box") ≠ []) as H2 by (vm_compute; discriminate).
  assert (create_qr_content (strip (lit " A1 ")) (strip (lit "Box")) (strip [])
          = Ok content_A1) as H3 by reflexivity.
  split_and!; [exact H1 | exact H2 | exact H3 |].
  destruct (manual_entry_outcomes (lit " A1 ") (lit "Box") [] content_A1 w
              H1 H2 H3) as (w' & Hrun & Hcase).
  assert (fst (create_qr_code content_A1 (strip (lit "Box")) (strip []) w)
          = Ok true) as Hok by reflexivity.
  rewrite Hok in Hcase. destruct Hcase as [(r & Hst & Hr & _) Htr].
  exists w', r. split_and!; [exact Hrun | exact Hst | exact Hr |].
  rewrite Htr. change (qr_fits (env w) content_A1) with false. cbv iota.
  rewrite last_app_cons. reflexivity.
Defined.


Lemma export_progress_updates_witness :
  let w := store_with working [lit "a"; lit "b"; lit "c"; lit "d"] in
  storage_down w = false ∧ stored w ≠ [] ∧ lit "qr.pdf" ≠ []
  ∧ ∃ w' evs,
      export_pdf (lit "qr.pdf") w = (Ok tt, w')
      ∧ trace w' = trace w ++ evs
      ∧ length (List.filter is_progress evs) = 4%nat.
Proof.
  intros w.
  assert (storage_down w = false) as H1 by reflexivity.
  assert (stored w ≠ []) as H2 by (vm_compute; discriminate).
  assert (lit "qr.pdf" ≠ []) as H3 by (vm_compute; discriminate).
  split_and!; [exact H1 | exact H2 | exact H3 |].
  destruct (export_progress_updates (lit "qr.pdf") w H1 H2 H3)
    as (w' & evs & Hrun & Htr & _ & Hlen).
  exists w', evs. split_and!; [exact Hrun | exact Htr |].
  rewrite Hlen. reflexivity.
Defined.


Lemma session_cards_are_backed_witness :
  let a := {| world := ready working; qr_display := [] |} in
  let clicks := [ClickGenerate (lit "A1") (lit "Box") [];
                 ClickAceptar [row_A1; row_blank] col_codigo col_descripcion
                   col_personalizacion;
                 ClickBorrarTodo false] in
  Forall (backed_by (stored (world a))) (qr_display a)
  ∧ (length (qr_display a) ≤ length (stored (world a)))%nat
  ∧ Forall (backed_by (stored (world (session clicks a))))
      (qr_display (session clicks a))
  ∧ length (qr_display (session clicks a)) = 2%nat.
Proof.
  intros a clicks.
  assert (Forall (backed_by (stored (world a))) (qr_display a)) as H1
    by constructor.
  assert (length (qr_display a) ≤ length (stored (world a)))%nat as H2
    by apply Nat.le_0_l.
  split_and!; [exact H1 | exact H2 | | reflexivity].
  exact (proj1 (session_cards_are_backed clicks a H1 H2)).
Defined.

Lemma session_records_are_well_formed_witness :
  let a := {| world := ready working; qr_display := [] |} in
  let clicks := [ClickGenerate (lit "A1") (lit "Box") [];
                 ClickAceptar [row_B2] col_codigo col_descripcion
                   col_personalizacion] in
  Forall well_formed (stored (world a))
  ∧ Forall well_formed (stored (world (session clicks a)))
  ∧ length (stored (world (session clicks a))) = 2%nat.
Proof.
  intros a clicks.
  assert (Forall well_formed (stored (world a))) as H by constructor.
  split_and!; [exact H | | reflexivity].
  exact (session_records_are_well_formed clicks a H).
Defined.
